(** * The CPU core of the gamebro Game Boy emulator (libgbc/cpu.cpp)

    A shallow embedding of [gbc::CPU]: the opcode decoder, the
    fetch/execute engine with its debugging hooks, the delayed IME toggle,
    the interrupt dispatch and the push-and-jump used by the I/O unit.

    Integers are [Z] with the wrap-around of the C++ type written out
    (16-bit registers, the 64-bit cycle counter).  The breakpoint table
    ([std::map<uint16_t, breakpoint_t>]) is a [gmap Z breakpoint_t].
    [Module Legacy] embeds the older variant of the same unit where it
    differs.  Definitions come first, the properties after them. *)

From Stdlib Require Import ZArith Lia List Bool Ascii String.
From stdpp Require Import base gmap strings.
Import ListNotations.

Local Open Scope Z_scope.

(** ** Instruction groups

    One constructor per [instruction_t] descriptor that [CPU::decode]
    can return a reference to. *)

Inductive instruction_t : Set :=
| instr_NOP | instr_LD_N_SP | instr_HALT | instr_LD_D_D | instr_LD_R_N
| instr_LD_R_A_R | instr_ADD_HL_R | instr_INC_DEC_R | instr_INC_DEC_D
| instr_RLC_RRC | instr_STOP | instr_JR_N | instr_LD_D_N | instr_LDID_HL_A
| instr_DAA | instr_CPL | instr_SCF_CCF | instr_ALU_A_N_D | instr_PUSH_POP
| instr_RET | instr_RST | instr_JP | instr_CALL | instr_ADD_SP_N
| instr_LD_N_A_N | instr_LD_xxx_A | instr_LD_HL_SP | instr_LD_JP_HL
| instr_DI_EI | instr_CB_EXT | instr_UNUSED_OPS | instr_MISSING.

Definition instruction_eqb (a b : instruction_t) : bool :=
  match a, b with
  | instr_NOP, instr_NOP | instr_LD_N_SP, instr_LD_N_SP
  | instr_HALT, instr_HALT | instr_LD_D_D, instr_LD_D_D
  | instr_LD_R_N, instr_LD_R_N | instr_LD_R_A_R, instr_LD_R_A_R
  | instr_ADD_HL_R, instr_ADD_HL_R | instr_INC_DEC_R, instr_INC_DEC_R
  | instr_INC_DEC_D, instr_INC_DEC_D | instr_RLC_RRC, instr_RLC_RRC
  | instr_STOP, instr_STOP | instr_JR_N, instr_JR_N
  | instr_LD_D_N, instr_LD_D_N | instr_LDID_HL_A, instr_LDID_HL_A
  | instr_DAA, instr_DAA | instr_CPL, instr_CPL
  | instr_SCF_CCF, instr_SCF_CCF | instr_ALU_A_N_D, instr_ALU_A_N_D
  | instr_PUSH_POP, instr_PUSH_POP | instr_RET, instr_RET
  | instr_RST, instr_RST | instr_JP, instr_JP | instr_CALL, instr_CALL
  | instr_ADD_SP_N, instr_ADD_SP_N | instr_LD_N_A_N, instr_LD_N_A_N
  | instr_LD_xxx_A, instr_LD_xxx_A | instr_LD_HL_SP, instr_LD_HL_SP
  | instr_LD_JP_HL, instr_LD_JP_HL | instr_DI_EI, instr_DI_EI
  | instr_CB_EXT, instr_CB_EXT | instr_UNUSED_OPS, instr_UNUSED_OPS
  | instr_MISSING, instr_MISSING => true
  | _, _ => false
  end.

(** [opcode & mask == value] on a [uint8_t] promoted to [int]. *)
Definition masked (opcode mask value : Z) : bool :=
  Z.land opcode mask =? value.

(** [CPU::decode]: first match wins, in the order of the source. *)
Definition decode (opcode : Z) : instruction_t :=
  if opcode =? 0 then instr_NOP
  else if opcode =? 0x08 then instr_LD_N_SP
  else if masked opcode 0xc0 0x40 then
    (if opcode =? 0x76 then instr_HALT else instr_LD_D_D)
  else if masked opcode 0xcf 0x1 then instr_LD_R_N
  else if masked opcode 0xe7 0x2 then instr_LD_R_A_R
  else if masked opcode 0xcf 0x9 then instr_ADD_HL_R
  else if masked opcode 0xc7 0x3 then instr_INC_DEC_R
  else if masked opcode 0xc6 0x4 then instr_INC_DEC_D
  else if masked opcode 0xe7 0x7 then instr_RLC_RRC
  else if opcode =? 0x10 then instr_STOP
  else if opcode =? 0x18 then instr_JR_N
  else if masked opcode 0xe7 0x20 then instr_JR_N
  else if masked opcode 0xc7 0x6 then instr_LD_D_N
  else if masked opcode 0xe7 0x22 then instr_LDID_HL_A
  else if opcode =? 0x27 then instr_DAA
  else if opcode =? 0x2f then instr_CPL
  else if masked opcode 0xf7 0x37 then instr_SCF_CCF
  else if masked opcode 0xc7 0xc6 then instr_ALU_A_N_D
  else if masked opcode 0xc0 0x80 then instr_ALU_A_N_D
  else if masked opcode 0xcb 0xc1 then instr_PUSH_POP
  else if masked opcode 0xe7 0xc0 then instr_RET
  else if masked opcode 0xef 0xc9 then instr_RET
  else if masked opcode 0xc7 0xc7 then instr_RST
  else if masked opcode 0xff 0xc3 then instr_JP
  else if masked opcode 0xe7 0xc2 then instr_JP
  else if masked opcode 0xff 0xc4 then instr_CALL
  else if masked opcode 0xcd 0xcd then instr_CALL
  else if opcode =? 0xe8 then instr_ADD_SP_N
  else if masked opcode 0xef 0xea then instr_LD_N_A_N
  else if masked opcode 0xef 0xe0 then instr_LD_xxx_A
  else if masked opcode 0xef 0xe2 then instr_LD_xxx_A
  else if masked opcode 0xef 0xea then instr_LD_xxx_A
  else if opcode =? 0xf8 then instr_LD_HL_SP
  else if masked opcode 0xef 0xe9 then instr_LD_JP_HL
  else if masked opcode 0xf7 0xf3 then instr_DI_EI
  else if opcode =? 0xcb then instr_CB_EXT
  else if opcode =? 0xdb then instr_UNUSED_OPS
  else if opcode =? 0xeb then instr_UNUSED_OPS
  else if opcode =? 0xec then instr_UNUSED_OPS
  else if opcode =? 0xe4 then instr_UNUSED_OPS
  else if opcode =? 0xfc then instr_UNUSED_OPS
  else if opcode =? 0xf4 then instr_UNUSED_OPS
  else instr_MISSING.

(** All values of a [uint8_t]. *)
Definition all_opcodes : list Z := List.map Z.of_nat (seq 0 256).

(** The opcodes that reach a given group: the decoder's table, inverted. *)
Definition opcodes_of (i : instruction_t) : list Z :=
  List.filter (fun op => instruction_eqb (decode op) i) all_opcodes.

(** ** Machine state *)

(** The register file: six 16-bit registers. *)
Record registers_t : Type := mkRegisters {
  af : Z; bc : Z; de : Z; hl : Z; sp : Z; pc : Z
}.

(** The F register is the low byte of AF. *)
Definition flags (r : registers_t) : Z := Z.land (af r) 0xff.

(** A breakpoint: the callback is named by its index in the registry of
    the environment (callbacks receive the CPU and may change anything). *)
Record breakpoint_t : Type := mkBreakpoint {
  callback : nat;
  bp_break_on_steps : Z;
  verbose_instr : bool
}.

(** The data members of [gbc::CPU]. *)
Record cpu_t : Type := mkCPU {
  registers : registers_t;
  m_cycles_total : Z;          (* uint64_t *)
  m_cur_opcode : Z;            (* uint8_t *)
  m_running : bool;
  m_asleep : bool;
  m_haltbug : Z;
  m_intr_master_enable : bool;
  m_intr_pending : Z;          (* signed countdown: +n enable, -n disable *)
  m_last_flags : Z;
  m_break : bool;
  m_break_steps_cnt : Z;
  m_break_steps : Z;
  m_breakpoints : gmap Z breakpoint_t
}.

(** The five interrupt sources of the I/O unit. *)
Inductive interrupt_t : Set := vblank | lcd_stat | timer | serial | joypad.

(** The part of the I/O unit the CPU talks to.  [serviced] is a log of
    the calls of [io.interrupt], oldest first; the program does not read
    it. *)
Record io_t : Type := mkIO {
  reg_if : Z;
  reg_ie : Z;
  serviced : list interrupt_t
}.

(** The machine as seen from the CPU: the CPU itself, the memory bus as
    a map from 16-bit addresses to bytes, the I/O unit and the verbose
    flag. *)
Record machine : Type := mkMachine {
  cpu : cpu_t;
  memory : Z -> Z;
  io : io_t;
  verbose_instructions : bool
}.

(** What lives outside this unit: the instruction handlers of
    instructions.cpp, the breakpoint callbacks (which may read the
    console), and the helpers of the machine, GPU and I/O unit that the
    debug console calls. *)
Record environment : Type := mkEnvironment {
  handler : instruction_t -> machine -> Z -> machine * Z;
  run_callback : nat -> machine -> Z -> list string -> machine * list string;
  default_pausepoint : Z -> machine -> machine;
  machine_reset : machine -> machine;
  render_and_vblank : machine -> machine;
  debugint_callback : machine -> machine;
  stoi : string -> Z;
  strtoul16 : string -> Z
}.

(** *** Field updates *)

Definition set_sp (v : Z) (r : registers_t) : registers_t :=
  {| af := af r; bc := bc r; de := de r; hl := hl r; sp := v; pc := pc r |}.
Definition set_pc (v : Z) (r : registers_t) : registers_t :=
  {| af := af r; bc := bc r; de := de r; hl := hl r; sp := sp r; pc := v |}.

Definition set_registers (v : registers_t) (c : cpu_t) : cpu_t :=
  {| registers := v; m_cycles_total := m_cycles_total c;
     m_cur_opcode := m_cur_opcode c; m_running := m_running c;
     m_asleep := m_asleep c; m_haltbug := m_haltbug c;
     m_intr_master_enable := m_intr_master_enable c;
     m_intr_pending := m_intr_pending c; m_last_flags := m_last_flags c;
     m_break := m_break c; m_break_steps_cnt := m_break_steps_cnt c;
     m_break_steps := m_break_steps c; m_breakpoints := m_breakpoints c |}.
Definition set_cycles_total (v : Z) (c : cpu_t) : cpu_t :=
  {| registers := registers c; m_cycles_total := v;
     m_cur_opcode := m_cur_opcode c; m_running := m_running c;
     m_asleep := m_asleep c; m_haltbug := m_haltbug c;
     m_intr_master_enable := m_intr_master_enable c;
     m_intr_pending := m_intr_pending c; m_last_flags := m_last_flags c;
     m_break := m_break c; m_break_steps_cnt := m_break_steps_cnt c;
     m_break_steps := m_break_steps c; m_breakpoints := m_breakpoints c |}.
Definition set_cur_opcode (v : Z) (c : cpu_t) : cpu_t :=
  {| registers := registers c; m_cycles_total := m_cycles_total c;
     m_cur_opcode := v; m_running := m_running c;
     m_asleep := m_asleep c; m_haltbug := m_haltbug c;
     m_intr_master_enable := m_intr_master_enable c;
     m_intr_pending := m_intr_pending c; m_last_flags := m_last_flags c;
     m_break := m_break c; m_break_steps_cnt := m_break_steps_cnt c;
     m_break_steps := m_break_steps c; m_breakpoints := m_breakpoints c |}.
Definition set_running (v : bool) (c : cpu_t) : cpu_t :=
  {| registers := registers c; m_cycles_total := m_cycles_total c;
     m_cur_opcode := m_cur_opcode c; m_running := v;
     m_asleep := m_asleep c; m_haltbug := m_haltbug c;
     m_intr_master_enable := m_intr_master_enable c;
     m_intr_pending := m_intr_pending c; m_last_flags := m_last_flags c;
     m_break := m_break c; m_break_steps_cnt := m_break_steps_cnt c;
     m_break_steps := m_break_steps c; m_breakpoints := m_breakpoints c |}.
Definition set_asleep (v : bool) (c : cpu_t) : cpu_t :=
  {| registers := registers c; m_cycles_total := m_cycles_total c;
     m_cur_opcode := m_cur_opcode c; m_running := m_running c;
     m_asleep := v; m_haltbug := m_haltbug c;
     m_intr_master_enable := m_intr_master_enable c;
     m_intr_pending := m_intr_pending c; m_last_flags := m_last_flags c;
     m_break := m_break c; m_break_steps_cnt := m_break_steps_cnt c;
     m_break_steps := m_break_steps c; m_breakpoints := m_breakpoints c |}.
Definition set_haltbug (v : Z) (c : cpu_t) : cpu_t :=
  {| registers := registers c; m_cycles_total := m_cycles_total c;
     m_cur_opcode := m_cur_opcode c; m_running := m_running c;
     m_asleep := m_asleep c; m_haltbug := v;
     m_intr_master_enable := m_intr_master_enable c;
     m_intr_pending := m_intr_pending c; m_last_flags := m_last_flags c;
     m_break := m_break c; m_break_steps_cnt := m_break_steps_cnt c;
     m_break_steps := m_break_steps c; m_breakpoints := m_breakpoints c |}.
Definition set_intr_master_enable (v : bool) (c : cpu_t) : cpu_t :=
  {| registers := registers c; m_cycles_total := m_cycles_total c;
     m_cur_opcode := m_cur_opcode c; m_running := m_running c;
     m_asleep := m_asleep c; m_haltbug := m_haltbug c;
     m_intr_master_enable := v;
     m_intr_pending := m_intr_pending c; m_last_flags := m_last_flags c;
     m_break := m_break c; m_break_steps_cnt := m_break_steps_cnt c;
     m_break_steps := m_break_steps c; m_breakpoints := m_breakpoints c |}.
Definition set_intr_pending (v : Z) (c : cpu_t) : cpu_t :=
  {| registers := registers c; m_cycles_total := m_cycles_total c;
     m_cur_opcode := m_cur_opcode c; m_running := m_running c;
     m_asleep := m_asleep c; m_haltbug := m_haltbug c;
     m_intr_master_enable := m_intr_master_enable c;
     m_intr_pending := v; m_last_flags := m_last_flags c;
     m_break := m_break c; m_break_steps_cnt := m_break_steps_cnt c;
     m_break_steps := m_break_steps c; m_breakpoints := m_breakpoints c |}.
Definition set_last_flags (v : Z) (c : cpu_t) : cpu_t :=
  {| registers := registers c; m_cycles_total := m_cycles_total c;
     m_cur_opcode := m_cur_opcode c; m_running := m_running c;
     m_asleep := m_asleep c; m_haltbug := m_haltbug c;
     m_intr_master_enable := m_intr_master_enable c;
     m_intr_pending := m_intr_pending c; m_last_flags := v;
     m_break := m_break c; m_break_steps_cnt := m_break_steps_cnt c;
     m_break_steps := m_break_steps c; m_breakpoints := m_breakpoints c |}.
Definition set_break (v : bool) (c : cpu_t) : cpu_t :=
  {| registers := registers c; m_cycles_total := m_cycles_total c;
     m_cur_opcode := m_cur_opcode c; m_running := m_running c;
     m_asleep := m_asleep c; m_haltbug := m_haltbug c;
     m_intr_master_enable := m_intr_master_enable c;
     m_intr_pending := m_intr_pending c; m_last_flags := m_last_flags c;
     m_break := v; m_break_steps_cnt := m_break_steps_cnt c;
     m_break_steps := m_break_steps c; m_breakpoints := m_breakpoints c |}.
Definition set_break_steps_cnt (v : Z) (c : cpu_t) : cpu_t :=
  {| registers := registers c; m_cycles_total := m_cycles_total c;
     m_cur_opcode := m_cur_opcode c; m_running := m_running c;
     m_asleep := m_asleep c; m_haltbug := m_haltbug c;
     m_intr_master_enable := m_intr_master_enable c;
     m_intr_pending := m_intr_pending c; m_last_flags := m_last_flags c;
     m_break := m_break c; m_break_steps_cnt := v;
     m_break_steps := m_break_steps c; m_breakpoints := m_breakpoints c |}.
Definition set_break_steps (v : Z) (c : cpu_t) : cpu_t :=
  {| registers := registers c; m_cycles_total := m_cycles_total c;
     m_cur_opcode := m_cur_opcode c; m_running := m_running c;
     m_asleep := m_asleep c; m_haltbug := m_haltbug c;
     m_intr_master_enable := m_intr_master_enable c;
     m_intr_pending := m_intr_pending c; m_last_flags := m_last_flags c;
     m_break := m_break c; m_break_steps_cnt := m_break_steps_cnt c;
     m_break_steps := v; m_breakpoints := m_breakpoints c |}.
Definition set_breakpoints (v : gmap Z breakpoint_t) (c : cpu_t) : cpu_t :=
  {| registers := registers c; m_cycles_total := m_cycles_total c;
     m_cur_opcode := m_cur_opcode c; m_running := m_running c;
     m_asleep := m_asleep c; m_haltbug := m_haltbug c;
     m_intr_master_enable := m_intr_master_enable c;
     m_intr_pending := m_intr_pending c; m_last_flags := m_last_flags c;
     m_break := m_break c; m_break_steps_cnt := m_break_steps_cnt c;
     m_break_steps := m_break_steps c; m_breakpoints := v |}.

Definition upd_cpu (f : cpu_t -> cpu_t) (m : machine) : machine :=
  {| cpu := f (cpu m); memory := memory m; io := io m;
     verbose_instructions := verbose_instructions m |}.
Definition set_memory (v : Z -> Z) (m : machine) : machine :=
  {| cpu := cpu m; memory := v; io := io m;
     verbose_instructions := verbose_instructions m |}.
Definition set_io (v : io_t) (m : machine) : machine :=
  {| cpu := cpu m; memory := memory m; io := v;
     verbose_instructions := verbose_instructions m |}.
Definition set_verbose_instructions (v : bool) (m : machine) : machine :=
  {| cpu := cpu m; memory := memory m; io := io m;
     verbose_instructions := v |}.

(** ** The memory bus and the I/O unit, as far as the CPU uses them *)

(** Modelled from the spec: the memory bus (memory.cpp is absent).
    [read8] and [write8] move one byte at a 16-bit address; [write16]
    stores the low byte first. *)
Definition read8 (mem : Z -> Z) (addr : Z) : Z :=
  (mem (addr mod 0x10000)) mod 0x100.

Definition write8 (mem : Z -> Z) (addr value : Z) : Z -> Z :=
  fun a => if a =? addr mod 0x10000 then value mod 0x100 else mem a.

Definition write16 (mem : Z -> Z) (addr value : Z) : Z -> Z :=
  write8 (write8 mem addr (Z.land value 0xff))
         (addr + 1) (Z.land (Z.shiftr value 8) 0xff).

(** Modelled from the spec: the request bit and the vector of each
    interrupt source (io.hpp is absent). *)
Definition mask (i : interrupt_t) : Z :=
  match i with
  | vblank => 0x01 | lcd_stat => 0x02 | timer => 0x04
  | serial => 0x08 | joypad => 0x10
  end.

Definition fixed_address (i : interrupt_t) : Z :=
  match i with
  | vblank => 0x40 | lcd_stat => 0x48 | timer => 0x50
  | serial => 0x58 | joypad => 0x60
  end.

(** Modelled from the spec: [IO::interrupt_mask] returns
    [IF & IE & 0x1F] (io.cpp is absent). *)
Definition interrupt_mask (o : io_t) : Z :=
  Z.land (Z.land (reg_if o) (reg_ie o)) 0x1f.

(** ** The CPU *)

Definition ime (m : machine) : bool := m_intr_master_enable (cpu m).
Definition is_running (m : machine) : bool := m_running (cpu m).
Definition is_halting (m : machine) : bool := m_asleep (cpu m).

(** [CPU::reset]: the six registers and the cycle counter, nothing else. *)
Definition reset (m : machine) : machine :=
  upd_cpu (fun c =>
    set_cycles_total 0
      (set_registers {| af := 0x01b0; bc := 0x0013; de := 0x00d8;
                        hl := 0x014d; sp := 0xfffe; pc := 0x0 |} c)) m.

(** [CPU::incr_cycles]; the counter is a [uint64_t].  The parameter is
    an [int]: the definition is what the code does for
    [0 <= count < 2^31].  Outside that range the code fails its
    assertion [count >= 0] (a count of 2^31 or more arrives negative),
    which is not modelled; statements about the clock keep to the
    range. *)
Definition incr_cycles (count : Z) (m : machine) : machine :=
  upd_cpu (fun c =>
    set_cycles_total ((m_cycles_total c + count) mod 2 ^ 64) c) m.

Definition stop (m : machine) : machine := upd_cpu (set_running false) m.

(** [CPU::wait], called by the HALT instruction. *)
Definition wait (m : machine) : machine :=
  upd_cpu (fun c => set_haltbug 2 (set_asleep true c)) m.

Definition enable_interrupts (m : machine) : machine :=
  upd_cpu (set_intr_pending 2) m.
Definition disable_interrupts (m : machine) : machine :=
  upd_cpu (set_intr_pending (-2)) m.

(** Modelled from the spec: [CPU::break_now] arms the one-shot break
    (cpu.hpp is absent). *)
Definition break_now (m : machine) : machine := upd_cpu (set_break true) m.

Definition readop8 (m : machine) (dx : Z) : Z :=
  read8 (memory m) (pc (registers (cpu m)) + dx).

(** [CPU::push_and_jump]: the new state and the T-states used. *)
Definition push_and_jump (address : Z) (m : machine) : machine * Z :=
  let r := registers (cpu m) in
  let sp' := (sp r - 2) mod 0x10000 in
  let m1 := upd_cpu (set_registers (set_sp sp' r)) m in
  let m2 := set_memory (write16 (memory m1) sp' (pc r)) m1 in
  (upd_cpu (fun c => set_registers (set_pc address (registers c)) c) m2, 8).

(** Modelled from the spec: [IO::interrupt] clears the request bit of
    the source in IF and has the CPU push PC and jump to the vector
    (io.cpp is absent).  The call is logged in [serviced]. *)
Definition interrupt (i : interrupt_t) (m : machine) : machine :=
  let o := io m in
  let m1 := set_io {| reg_if := Z.ldiff (reg_if o) (mask i);
                      reg_ie := reg_ie o;
                      serviced := serviced o ++ [i] |} m in
  fst (push_and_jump (fixed_address i) m1).

(** *** [CPU::handle_interrupts], block by block *)

(** First block: the delayed IME toggle. *)
Definition ime_countdown (m : machine) : machine :=
  let p := m_intr_pending (cpu m) in
  if 0 <? p then
    let m1 := upd_cpu (set_intr_pending (p - 1)) m in
    if m_intr_pending (cpu m1) =? 0
    then upd_cpu (set_intr_master_enable true) m1 else m1
  else if p <? 0 then
    let m1 := upd_cpu (set_intr_pending (p + 1)) m in
    if m_intr_pending (cpu m1) =? 0
    then upd_cpu (set_intr_master_enable false) m1 else m1
  else m.

(** [imask & bit], read as a condition. *)
Definition bit_set (imask b : Z) : bool := negb (Z.land imask b =? 0).

(** Second block: dispatch of the pending, enabled interrupts. *)
Definition dispatch_interrupts (m : machine) : machine :=
  let imask := interrupt_mask (io m) in
  if ime m && negb (imask =? 0) then
    let m1 := upd_cpu (fun c =>
                set_intr_pending 0
                  (set_intr_master_enable false (set_asleep false c))) m in
    if bit_set imask 0x1 then interrupt vblank m1
    else if bit_set imask 0x2 then interrupt lcd_stat m1
    else if bit_set imask 0x4 then interrupt timer m1
    else if bit_set imask 0x8 then interrupt serial m1
    else if bit_set imask 0x10 then interrupt joypad m1
    else break_now m1
  else m.

(** Third block: the HALT-bug counter runs down while the CPU is awake. *)
Definition haltbug_countdown (m : machine) : machine :=
  if negb (m_asleep (cpu m)) then
    if negb (m_haltbug (cpu m) =? 0)
    then upd_cpu (set_haltbug (m_haltbug (cpu m) - 1)) m else m
  else m.

Definition handle_interrupts (m : machine) : machine :=
  haltbug_countdown (dispatch_interrupts (ime_countdown m)).

(** ** The debug harness *)

(** [CPU::break_time]: declared const, but it counts [m_break_steps]
    down; the new state is returned with the answer. *)
Definition break_time (m : machine) : bool * machine :=
  if m_break (cpu m) then (true, m)
  else if negb (m_break_steps_cnt (cpu m) =? 0) then
    let m1 := upd_cpu (set_break_steps (m_break_steps (cpu m) - 1)) m in
    if m_break_steps (cpu m1) <=? 0
    then (true, upd_cpu (set_break_steps (m_break_steps_cnt (cpu m1))) m1)
    else (false, m1)
  else (false, m).

(** [CPU::break_on_steps]; the assertion [steps >= 0] is not part of
    the model. *)
Definition break_on_steps (steps : Z) (m : machine) : machine :=
  upd_cpu (fun c => set_break_steps steps (set_break_steps_cnt steps c)) m.

(** [split]: the pieces of [txt] between occurrences of [ch]; [cur] is
    the piece being read. *)
Fixpoint split_from (cur txt : string) (ch : ascii) : list string :=
  match txt with
  | EmptyString => [cur]
  | String c rest =>
      if Ascii.eqb c ch then cur :: split_from EmptyString rest ch
      else split_from (cur ++ String c EmptyString)%string rest ch
  end.

Definition split (txt : string) (ch : ascii) : list string :=
  split_from EmptyString txt ch.

Definition param (params : list string) (n : nat) : string :=
  nth n params EmptyString.

Section Engine.

Variable env : environment.

(** [execute_commands] on one line [text] read from the console: the
    answer [true] keeps the console open.  Printing has no effect on
    the machine.  [std::stoi] is taken as a total function, a read of
    the bus as silent and the assertion of [break_on_steps] as passed:
    on a line where the code throws or aborts instead (see
    [plain_line] for the lines where it cannot) the definition says
    nothing about the code. *)
Definition execute_commands (text : string) (m : machine) : bool * machine :=
  if String.eqb text EmptyString then (false, m) else
  let params := split text " "%char in
  let cmd := param params 0 in
  let cmd_is (w : string) := String.eqb cmd w in
  if cmd_is "c" || cmd_is "continue" then (false, break_on_steps 0 m)
  else if cmd_is EmptyString then (false, m)
  else if cmd_is "s" || cmd_is "step" then
    let m1 := set_verbose_instructions true m in
    let steps := if (1 <? length params)%nat
                 then stoi env (param params 1) else 1 in
    (false, break_on_steps steps m1)
  else if cmd_is "b" || cmd_is "break" then
    if (length params <? 2)%nat then (true, m)
    else (true, default_pausepoint env
                  (Z.land (strtoul16 env (param params 1)) 0xFFFF) m)
  else if cmd_is "clear" then (true, upd_cpu (set_breakpoints ∅) m)
  else if cmd_is "v" || cmd_is "verbose" then
    (true, set_verbose_instructions (negb (verbose_instructions m)) m)
  else if cmd_is "r" || cmd_is "run" then
    (false, break_on_steps 0 (set_verbose_instructions false m))
  else if cmd_is "q" || cmd_is "quit" || cmd_is "exit" then (false, stop m)
  else if cmd_is "reset" then (false, break_now (machine_reset env m))
  else if cmd_is "ld" || cmd_is "read" then (true, m)
  else if cmd_is "write" then
    if (length params <? 3)%nat then (true, m)
    else (true, set_memory
                  (write8 (memory m) (strtoul16 env (param params 1))
                          (Z.land (stoi env (param params 2)) 0xff)) m)
  else if cmd_is "vblank" then (true, render_and_vblank env m)
  else if cmd_is "debug" then (true, debugint_callback env m)
  else if cmd_is "help" || cmd_is "?" then (true, m)
  else (true, m).

(** [CPU::print_and_pause]: after the dump, the loop
    [while (execute_commands(cpu));] over the lines of the console;
    at the end of the input the line read is empty and the loop ends. *)
Fixpoint print_and_pause (m : machine) (input : list string)
  : machine * list string :=
  match input with
  | [] => (m, [])
  | text :: rest =>
      let '(again, m1) := execute_commands text m in
      if again then print_and_pause m1 rest else (m1, rest)
  end.

(** The debugging hooks at the head of [CPU::execute]: the machine,
    the console input left, and whether [execute] returns at once
    because the user quit. *)
Definition execute_break_checks (m : machine) (opcode : Z)
    (input : list string) : machine * list string * bool :=
  let '(fire, m1) := break_time m in
  if fire then
    let m2 := upd_cpu (set_break false) m1 in
    let '(m3, input') := print_and_pause m2 input in
    (m3, input', negb (is_running m3))
  else if negb (bool_decide (m_breakpoints (cpu m1) = ∅)) then
    match m_breakpoints (cpu m1) !! pc (registers (cpu m1)) with
    | Some bp =>
        let '(m2, input') := run_callback env (callback bp) m1 opcode input in
        (m2, input', false)
    | None => (m1, input, false)
    end
  else (m1, input, false).

(** [registers().pc += 1] on a [uint16_t]. *)
Definition increment_pc (m : machine) : machine :=
  upd_cpu (fun c =>
    set_registers
      (set_pc ((pc (registers c) + 1) mod 0x10000) (registers c)) c) m.

(** The tail of [CPU::execute] in verbose mode: remember F when it
    changed. *)
Definition log_flags (m : machine) : machine :=
  if verbose_instructions m then
    if negb (m_last_flags (cpu m) =? flags (registers (cpu m)))
    then upd_cpu (set_last_flags (flags (registers (cpu m)))) m
    else m
  else m.

(** [CPU::execute]: the machine, the T-states used and the console
    input left. *)
Definition execute (m : machine) (opcode : Z) (input : list string)
  : machine * Z * list string :=
  let '(m1, input', quit) := execute_break_checks m opcode input in
  if quit then (m1, 0, input') else
  let instr := decode opcode in
  let m2 := increment_pc m1 in
  let '(m3, ret) := handler env instr m2 opcode in
  (log_flags m3, ret, input').

(** The first half of [CPU::simulate]: run one instruction, or let
    time pass while halted. *)
Definition simulate_instruction (m : machine) (input : list string)
  : machine * list string :=
  if negb (is_halting m) then
    let m1 := upd_cpu (set_cur_opcode (readop8 m 0)) m in
    let '(m2, time, input') := execute m1 (m_cur_opcode (cpu m1)) input in
    (incr_cycles time m2, input')
  else (incr_cycles 4 m, input).

(** [CPU::simulate]. *)
Definition simulate (m : machine) (input : list string)
  : machine * list string :=
  let '(m1, input') := simulate_instruction m input in
  (handle_interrupts m1, input').

(** [n] calls of [simulate] in a row. *)
Fixpoint simulate_n (n : nat) (m : machine) (input : list string)
  : machine * list string :=
  match n with
  | O => (m, input)
  | S k => let '(m1, input') := simulate m input in simulate_n k m1 input'
  end.

End Engine.

(** * The older variant of the unit

    The same class before the HALT-bug counter and the console commands:
    two separate countdowns for EI and DI, a single [m_halting] counter,
    breakpoints that carry a step period and a verbose flag, and a
    one-key break prompt.  Only what differs from the unit above is
    embedded again; the register file, the memory bus and the I/O unit
    are shared. *)

Module Legacy.

Record breakpoint_t : Type := mkBreakpoint {
  callback : option nat;       (* an empty std::function is skipped *)
  break_on_steps : Z;
  verbose_instr : bool
}.

Record cpu_t : Type := mkCPU {
  registers : registers_t;
  m_cycles_total : Z;
  m_cur_opcode : Z;
  m_running : bool;
  m_halting : Z;
  m_intr_master_enable : bool;
  m_intr_enable_pending : Z;
  m_intr_disable_pending : Z;
  m_last_flags : Z;
  m_break : bool;
  m_break_steps_cnt : Z;
  m_break_steps : Z;
  m_breakpoints : gmap Z breakpoint_t
}.

Record machine : Type := mkMachine {
  cpu : cpu_t;
  memory : Z -> Z;
  io : io_t;
  verbose_instructions : bool
}.

Record environment : Type := mkEnvironment {
  handler : instruction_t -> machine -> Z -> machine * Z;
  run_callback : nat -> machine -> Z -> machine
}.

Definition set_registers (v : registers_t) (c : cpu_t) : cpu_t :=
  {| registers := v; m_cycles_total := m_cycles_total c;
     m_cur_opcode := m_cur_opcode c; m_running := m_running c;
     m_halting := m_halting c;
     m_intr_master_enable := m_intr_master_enable c;
     m_intr_enable_pending := m_intr_enable_pending c;
     m_intr_disable_pending := m_intr_disable_pending c;
     m_last_flags := m_last_flags c; m_break := m_break c;
     m_break_steps_cnt := m_break_steps_cnt c;
     m_break_steps := m_break_steps c;
     m_breakpoints := m_breakpoints c |}.
Definition set_cycles_total (v : Z) (c : cpu_t) : cpu_t :=
  {| registers := registers c; m_cycles_total := v;
     m_cur_opcode := m_cur_opcode c; m_running := m_running c;
     m_halting := m_halting c;
     m_intr_master_enable := m_intr_master_enable c;
     m_intr_enable_pending := m_intr_enable_pending c;
     m_intr_disable_pending := m_intr_disable_pending c;
     m_last_flags := m_last_flags c; m_break := m_break c;
     m_break_steps_cnt := m_break_steps_cnt c;
     m_break_steps := m_break_steps c;
     m_breakpoints := m_breakpoints c |}.
Definition set_cur_opcode (v : Z) (c : cpu_t) : cpu_t :=
  {| registers := registers c; m_cycles_total := m_cycles_total c;
     m_cur_opcode := v; m_running := m_running c;
     m_halting := m_halting c;
     m_intr_master_enable := m_intr_master_enable c;
     m_intr_enable_pending := m_intr_enable_pending c;
     m_intr_disable_pending := m_intr_disable_pending c;
     m_last_flags := m_last_flags c; m_break := m_break c;
     m_break_steps_cnt := m_break_steps_cnt c;
     m_break_steps := m_break_steps c;
     m_breakpoints := m_breakpoints c |}.
Definition set_running (v : bool) (c : cpu_t) : cpu_t :=
  {| registers := registers c; m_cycles_total := m_cycles_total c;
     m_cur_opcode := m_cur_opcode c; m_running := v;
     m_halting := m_halting c;
     m_intr_master_enable := m_intr_master_enable c;
     m_intr_enable_pending := m_intr_enable_pending c;
     m_intr_disable_pending := m_intr_disable_pending c;
     m_last_flags := m_last_flags c; m_break := m_break c;
     m_break_steps_cnt := m_break_steps_cnt c;
     m_break_steps := m_break_steps c;
     m_breakpoints := m_breakpoints c |}.
Definition set_halting (v : Z) (c : cpu_t) : cpu_t :=
  {| registers := registers c; m_cycles_total := m_cycles_total c;
     m_cur_opcode := m_cur_opcode c; m_running := m_running c;
     m_halting := v; m_intr_master_enable := m_intr_master_enable c;
     m_intr_enable_pending := m_intr_enable_pending c;
     m_intr_disable_pending := m_intr_disable_pending c;
     m_last_flags := m_last_flags c; m_break := m_break c;
     m_break_steps_cnt := m_break_steps_cnt c;
     m_break_steps := m_break_steps c;
     m_breakpoints := m_breakpoints c |}.
Definition set_intr_master_enable (v : bool) (c : cpu_t) : cpu_t :=
  {| registers := registers c; m_cycles_total := m_cycles_total c;
     m_cur_opcode := m_cur_opcode c; m_running := m_running c;
     m_halting := m_halting c; m_intr_master_enable := v;
     m_intr_enable_pending := m_intr_enable_pending c;
     m_intr_disable_pending := m_intr_disable_pending c;
     m_last_flags := m_last_flags c; m_break := m_break c;
     m_break_steps_cnt := m_break_steps_cnt c;
     m_break_steps := m_break_steps c;
     m_breakpoints := m_breakpoints c |}.
Definition set_intr_enable_pending (v : Z) (c : cpu_t) : cpu_t :=
  {| registers := registers c; m_cycles_total := m_cycles_total c;
     m_cur_opcode := m_cur_opcode c; m_running := m_running c;
     m_halting := m_halting c;
     m_intr_master_enable := m_intr_master_enable c;
     m_intr_enable_pending := v;
     m_intr_disable_pending := m_intr_disable_pending c;
     m_last_flags := m_last_flags c; m_break := m_break c;
     m_break_steps_cnt := m_break_steps_cnt c;
     m_break_steps := m_break_steps c;
     m_breakpoints := m_breakpoints c |}.
Definition set_intr_disable_pending (v : Z) (c : cpu_t) : cpu_t :=
  {| registers := registers c; m_cycles_total := m_cycles_total c;
     m_cur_opcode := m_cur_opcode c; m_running := m_running c;
     m_halting := m_halting c;
     m_intr_master_enable := m_intr_master_enable c;
     m_intr_enable_pending := m_intr_enable_pending c;
     m_intr_disable_pending := v; m_last_flags := m_last_flags c;
     m_break := m_break c; m_break_steps_cnt := m_break_steps_cnt c;
     m_break_steps := m_break_steps c;
     m_breakpoints := m_breakpoints c |}.
Definition set_last_flags (v : Z) (c : cpu_t) : cpu_t :=
  {| registers := registers c; m_cycles_total := m_cycles_total c;
     m_cur_opcode := m_cur_opcode c; m_running := m_running c;
     m_halting := m_halting c;
     m_intr_master_enable := m_intr_master_enable c;
     m_intr_enable_pending := m_intr_enable_pending c;
     m_intr_disable_pending := m_intr_disable_pending c;
     m_last_flags := v; m_break := m_break c;
     m_break_steps_cnt := m_break_steps_cnt c;
     m_break_steps := m_break_steps c;
     m_breakpoints := m_breakpoints c |}.
Definition set_break (v : bool) (c : cpu_t) : cpu_t :=
  {| registers := registers c; m_cycles_total := m_cycles_total c;
     m_cur_opcode := m_cur_opcode c; m_running := m_running c;
     m_halting := m_halting c;
     m_intr_master_enable := m_intr_master_enable c;
     m_intr_enable_pending := m_intr_enable_pending c;
     m_intr_disable_pending := m_intr_disable_pending c;
     m_last_flags := m_last_flags c; m_break := v;
     m_break_steps_cnt := m_break_steps_cnt c;
     m_break_steps := m_break_steps c;
     m_breakpoints := m_breakpoints c |}.
Definition set_break_steps_cnt (v : Z) (c : cpu_t) : cpu_t :=
  {| registers := registers c; m_cycles_total := m_cycles_total c;
     m_cur_opcode := m_cur_opcode c; m_running := m_running c;
     m_halting := m_halting c;
     m_intr_master_enable := m_intr_master_enable c;
     m_intr_enable_pending := m_intr_enable_pending c;
     m_intr_disable_pending := m_intr_disable_pending c;
     m_last_flags := m_last_flags c; m_break := m_break c;
     m_break_steps_cnt := v; m_break_steps := m_break_steps c;
     m_breakpoints := m_breakpoints c |}.
Definition set_break_steps (v : Z) (c : cpu_t) : cpu_t :=
  {| registers := registers c; m_cycles_total := m_cycles_total c;
     m_cur_opcode := m_cur_opcode c; m_running := m_running c;
     m_halting := m_halting c;
     m_intr_master_enable := m_intr_master_enable c;
     m_intr_enable_pending := m_intr_enable_pending c;
     m_intr_disable_pending := m_intr_disable_pending c;
     m_last_flags := m_last_flags c; m_break := m_break c;
     m_break_steps_cnt := m_break_steps_cnt c; m_break_steps := v;
     m_breakpoints := m_breakpoints c |}.

Definition upd_cpu (f : cpu_t -> cpu_t) (m : machine) : machine :=
  {| cpu := f (cpu m); memory := memory m; io := io m;
     verbose_instructions := verbose_instructions m |}.
Definition set_memory (v : Z -> Z) (m : machine) : machine :=
  {| cpu := cpu m; memory := v; io := io m;
     verbose_instructions := verbose_instructions m |}.
Definition set_io (v : io_t) (m : machine) : machine :=
  {| cpu := cpu m; memory := memory m; io := v;
     verbose_instructions := verbose_instructions m |}.
Definition set_verbose_instructions (v : bool) (m : machine) : machine :=
  {| cpu := cpu m; memory := memory m; io := io m;
     verbose_instructions := v |}.

Definition ime (m : machine) : bool := m_intr_master_enable (cpu m).

(** [CPU::reset] of the variant: PC starts at 0x0100. *)
Definition reset (m : machine) : machine :=
  upd_cpu (fun c =>
    set_cycles_total 0
      (set_registers {| af := 0x01b0; bc := 0x0013; de := 0x00d8;
                        hl := 0x014d; sp := 0xfffe; pc := 0x0100 |} c)) m.

Definition stop (m : machine) : machine := upd_cpu (set_running false) m.
Definition wait (m : machine) : machine := upd_cpu (set_halting 1) m.

Definition enable_interrupts (m : machine) : machine :=
  upd_cpu (set_intr_enable_pending 2) m.
Definition disable_interrupts (m : machine) : machine :=
  upd_cpu (set_intr_disable_pending 2) m.

Definition break_now (m : machine) : machine := upd_cpu (set_break true) m.

Definition push_and_jump (address : Z) (m : machine) : machine * Z :=
  let r := registers (cpu m) in
  let sp' := (sp r - 2) mod 0x10000 in
  let m1 := upd_cpu (set_registers (set_sp sp' r)) m in
  let m2 := set_memory (write16 (memory m1) sp' (pc r)) m1 in
  (upd_cpu (fun c => set_registers (set_pc address (registers c)) c) m2, 8).

Definition interrupt (i : interrupt_t) (m : machine) : machine :=
  let o := io m in
  let m1 := set_io {| reg_if := Z.ldiff (reg_if o) (mask i);
                      reg_ie := reg_ie o;
                      serviced := serviced o ++ [i] |} m in
  fst (push_and_jump (fixed_address i) m1).

(** The two countdowns of the variant run one after the other in the
    same call. *)
Definition ime_countdown (m : machine) : machine :=
  let m1 :=
    if 0 <? m_intr_enable_pending (cpu m) then
      let m' := upd_cpu (set_intr_enable_pending
                           (m_intr_enable_pending (cpu m) - 1)) m in
      if m_intr_enable_pending (cpu m') =? 0
      then upd_cpu (set_intr_master_enable true) m' else m'
    else m in
  if 0 <? m_intr_disable_pending (cpu m1) then
    let m' := upd_cpu (set_intr_disable_pending
                         (m_intr_disable_pending (cpu m1) - 1)) m1 in
    if m_intr_disable_pending (cpu m') =? 0
    then upd_cpu (set_intr_master_enable false) m' else m'
  else m1.

Definition dispatch_interrupts (m : machine) : machine :=
  let imask := interrupt_mask (io m) in
  if ime m && negb (imask =? 0) then
    let m1 := upd_cpu (fun c =>
                set_intr_disable_pending 0
                  (set_intr_enable_pending 0
                     (set_intr_master_enable false c))) m in
    let m2 :=
      if bit_set imask 0x1 then interrupt vblank m1
      else if bit_set imask 0x2 then interrupt lcd_stat m1
      else if bit_set imask 0x4 then interrupt timer m1
      else if bit_set imask 0x8 then interrupt serial m1
      else if bit_set imask 0x10 then interrupt joypad m1
      else break_now m1 in
    if negb (m_halting (cpu m2) =? 0)
    then upd_cpu (set_halting (m_halting (cpu m2) - 1)) m2 else m2
  else m.

Definition handle_interrupts (m : machine) : machine :=
  dispatch_interrupts (ime_countdown m).

(** [CPU::decode] of the variant: no DAA, no ADD SP,n and no group of
    unused opcodes. *)
Definition decode (opcode : Z) : instruction_t :=
  if opcode =? 0 then instr_NOP
  else if opcode =? 0x08 then instr_LD_N_SP
  else if masked opcode 0xc0 0x40 then
    (if opcode =? 0x76 then instr_HALT else instr_LD_D_D)
  else if masked opcode 0xcf 0x1 then instr_LD_R_N
  else if masked opcode 0xe7 0x2 then instr_LD_R_A_R
  else if masked opcode 0xcf 0x9 then instr_ADD_HL_R
  else if masked opcode 0xc7 0x3 then instr_INC_DEC_R
  else if masked opcode 0xc6 0x4 then instr_INC_DEC_D
  else if masked opcode 0xe7 0x7 then instr_RLC_RRC
  else if opcode =? 0x10 then instr_STOP
  else if opcode =? 0x18 then instr_JR_N
  else if masked opcode 0xe7 0x20 then instr_JR_N
  else if masked opcode 0xc7 0x6 then instr_LD_D_N
  else if masked opcode 0xe7 0x22 then instr_LDID_HL_A
  else if opcode =? 0x2f then instr_CPL
  else if masked opcode 0xf7 0x37 then instr_SCF_CCF
  else if masked opcode 0xc7 0xc6 then instr_ALU_A_N_D
  else if masked opcode 0xc0 0x80 then instr_ALU_A_N_D
  else if masked opcode 0xcb 0xc1 then instr_PUSH_POP
  else if masked opcode 0xe7 0xc0 then instr_RET
  else if masked opcode 0xef 0xc9 then instr_RET
  else if masked opcode 0xc7 0xc7 then instr_RST
  else if masked opcode 0xff 0xc3 then instr_JP
  else if masked opcode 0xe7 0xc2 then instr_JP
  else if masked opcode 0xff 0xc4 then instr_CALL
  else if masked opcode 0xcd 0xcd then instr_CALL
  else if masked opcode 0xef 0xea then instr_LD_N_A_N
  else if masked opcode 0xef 0xe0 then instr_LD_xxx_A
  else if masked opcode 0xef 0xe2 then instr_LD_xxx_A
  else if masked opcode 0xef 0xea then instr_LD_xxx_A
  else if opcode =? 0xf8 then instr_LD_HL_SP
  else if masked opcode 0xef 0xe9 then instr_LD_JP_HL
  else if masked opcode 0xf7 0xf3 then instr_DI_EI
  else if opcode =? 0xcb then instr_CB_EXT
  else instr_MISSING.

Definition break_time (m : machine) : bool * machine :=
  if m_break (cpu m) then (true, m)
  else if negb (m_break_steps_cnt (cpu m) =? 0) then
    let m1 := upd_cpu (set_break_steps (m_break_steps (cpu m) - 1)) m in
    if m_break_steps (cpu m1) <=? 0
    then (true, upd_cpu (set_break_steps (m_break_steps_cnt (cpu m1))) m1)
    else (false, m1)
  else (false, m).

Definition set_break_on_steps (steps : Z) (m : machine) : machine :=
  upd_cpu (fun c => set_break_steps steps (set_break_steps_cnt steps c)) m.

(** The key pressed at the prompt, as a character code; [None] at the
    end of the input. *)
Definition getchar (input : string) : option Z * string :=
  match input with
  | EmptyString => (None, EmptyString)
  | String c rest => (Some (Z.of_N (N_of_ascii c)), rest)
  end.

(** [CPU::print_and_pause] of the variant: one key, then the newline
    after it is dropped. *)
Definition print_and_pause (m : machine) (input : string)
  : machine * string :=
  let '(c, input1) := getchar input in
  let key (k : string) : bool :=
    match c, k with
    | Some z, String a EmptyString => z =? Z.of_N (N_of_ascii a)
    | _, _ => false
    end in
  let m1 :=
    match c with
    | Some z =>
        if (49 <=? z) && (z <=? 57) then
          set_break_on_steps (Z.shiftl 1 (z - 49))
            (set_verbose_instructions true m)
        else if key "V" || key "v" then
          set_verbose_instructions (negb (verbose_instructions m)) m
        else if key "R" || key "r" then
          set_break_on_steps 0 (set_verbose_instructions false m)
        else if key "Q" || key "q" then stop m
        else m
    | None => m
    end in
  let input2 :=
    match c with
    | Some 10 => input1
    | _ => snd (getchar input1)
    end in
  (m1, input2).

Section Engine.

Variable env : environment.

(** The debugging hooks at the head of [CPU::execute] of the
    variant: a breakpoint's step period and verbose flag are taken
    over after its callback ran. *)
Definition execute_break_checks (m : machine) (opcode : Z)
    (input : string) : machine * string :=
  let '(fire, m1) := break_time m in
  if fire then
    print_and_pause (upd_cpu (set_break false) m1) input
  else if negb (bool_decide (m_breakpoints (cpu m1) = ∅)) then
    match m_breakpoints (cpu m1) !! pc (registers (cpu m1)) with
    | Some bp =>
        let m2 := match callback bp with
                  | Some cb => run_callback env cb m1 opcode
                  | None => m1
                  end in
        let m3 := set_break_on_steps (break_on_steps bp) m2 in
        (set_verbose_instructions (verbose_instr bp) m3, input)
    | None => (m1, input)
    end
  else (m1, input).

Definition increment_pc (m : machine) : machine :=
  upd_cpu (fun c =>
    set_registers
      (set_pc ((pc (registers c) + 1) mod 0x10000) (registers c)) c) m.

Definition log_flags (m : machine) : machine :=
  if verbose_instructions m then
    if negb (m_last_flags (cpu m) =? flags (registers (cpu m)))
    then upd_cpu (set_last_flags (flags (registers (cpu m)))) m
    else m
  else m.

Definition execute (m : machine) (opcode : Z) (input : string)
  : machine * Z * string :=
  let '(m1, input') := execute_break_checks m opcode input in
  let instr := decode opcode in
  let m2 := increment_pc m1 in
  let '(m3, ret) := handler env instr m2 opcode in
  (log_flags m3, ret, input').

End Engine.

End Legacy.

(** * Scenarios

    Concrete machines and environments on which the statements below
    are evaluated. *)

(** Modelled from the spec: the handlers of instructions.cpp (absent)
    that the scenarios use.  HALT calls [wait], DI (0xF3) and EI (0xFB)
    call [disable_interrupts] and [enable_interrupts], NOP and the
    unused opcodes do nothing; each takes 4 T-states.  The other groups
    are not exercised and are given the timing of NOP. *)
Definition scenario_handler (i : instruction_t) (m : machine) (opcode : Z)
  : machine * Z :=
  match i with
  | instr_HALT => (wait m, 4)
  | instr_DI_EI =>
      if opcode =? 0xf3 then (disable_interrupts m, 4)
      else (enable_interrupts m, 4)
  | _ => (m, 4)
  end.

(** An environment whose callbacks and console helpers do nothing. *)
Definition scenario_env : environment :=
  {| handler := scenario_handler;
     run_callback := fun _ m _ input => (m, input);
     default_pausepoint := fun _ m => m;
     machine_reset := reset;
     render_and_vblank := fun m => m;
     debugint_callback := fun m => m;
     stoi := fun _ => 1;
     strtoul16 := fun _ => 0 |}.

(** An environment whose handlers report, as the T-states used, the PC
    they were entered with. *)
Definition pc_probe_env : environment :=
  {| handler := fun _ m _ => (m, pc (registers (cpu m)));
     run_callback := fun _ m _ input => (m, input);
     default_pausepoint := fun _ m => m;
     machine_reset := reset;
     render_and_vblank := fun m => m;
     debugint_callback := fun m => m;
     stoi := fun _ => 1;
     strtoul16 := fun _ => 0 |}.

(** Memory holding [bytes] from address [base] on, zero elsewhere. *)
Definition load (base : Z) (bytes : list Z) : Z -> Z :=
  fun a => if a <? base then 0 else nth (Z.to_nat (a - base)) bytes 0.

(** A CPU that runs at 0x0100 with the boot register values, interrupts
    off and the debug harness idle. *)
Definition power_on_cpu : cpu_t :=
  {| registers := {| af := 0x01b0; bc := 0x0013; de := 0x00d8;
                     hl := 0x014d; sp := 0xfffe; pc := 0x0100 |};
     m_cycles_total := 0; m_cur_opcode := 0; m_running := true;
     m_asleep := false; m_haltbug := 0; m_intr_master_enable := false;
     m_intr_pending := 0; m_last_flags := 0xb0; m_break := false;
     m_break_steps_cnt := 0; m_break_steps := 0; m_breakpoints := ∅ |}.

Definition quiet_io : io_t := {| reg_if := 0; reg_ie := 0; serviced := [] |}.

(** VBlank requested and enabled. *)
Definition vblank_io : io_t := {| reg_if := 0x01; reg_ie := 0x01; serviced := [] |}.

(** Timer and joypad requested, all sources enabled. *)
Definition timer_joypad_io : io_t :=
  {| reg_if := 0x14; reg_ie := 0x1f; serviced := [] |}.

Definition power_on (program : list Z) (o : io_t) : machine :=
  {| cpu := power_on_cpu; memory := load 0x0100 program; io := o;
     verbose_instructions := false |}.

(** EI; DI; NOP with IME already on and nothing pending. *)
Definition ei_di_nop_ime_on : machine :=
  upd_cpu (set_intr_master_enable true) (power_on [0xfb; 0xf3; 0x00] quiet_io).

(** A NOP to run with IME on, timer and joypad pending. *)
Definition nop_with_pending : machine :=
  upd_cpu (set_intr_master_enable true) (power_on [0x00] timer_joypad_io).

(** Halted with IME off and VBlank pending. *)
Definition halted_ime_off : machine :=
  upd_cpu (fun c => set_haltbug 2 (set_asleep true c)) (power_on [0x00] vblank_io).

(** Halted with IME on and VBlank pending. *)
Definition halted_ime_on : machine :=
  upd_cpu (set_intr_master_enable true) halted_ime_off.

(** Halted, nothing pending, 1000 T-states on the clock. *)
Definition halted_quiet : machine :=
  upd_cpu (fun c => set_cycles_total 1000 (set_asleep true c))
          (power_on [0x00] quiet_io).

(** Awake again after a HALT, one step of the HALT-bug counter left. *)
Definition after_halt : machine :=
  upd_cpu (set_haltbug 1) (power_on [0x3c] quiet_io).

(** A CPU that was running for a while: halted, IME on, an EI pending,
    mid-counter, with a stale opcode. *)
Definition used_machine : machine :=
  upd_cpu (fun c =>
    set_cur_opcode 0x76 (set_intr_pending 1 (set_intr_master_enable true
      (set_haltbug 2 (set_asleep true (set_cycles_total 123456 c))))))
    (power_on [0x76] quiet_io).

(** The one-shot break is armed, IME on and VBlank pending, 1000
    T-states on the clock. *)
Definition break_armed : machine :=
  upd_cpu (fun c => set_cycles_total 1000 (set_break true
                      (set_intr_master_enable true c)))
          (power_on [0x00] vblank_io).

(** A breakpoint at the current PC asking for a step period of 5 and
    verbose mode. *)
Definition at_breakpoint : machine :=
  upd_cpu (set_breakpoints
             {[ 0x0100 := {| callback := 0%nat; bp_break_on_steps := 5;
                             verbose_instr := true |} ]})
          (power_on [0x00] quiet_io).

Definition legacy_power_on_cpu : Legacy.cpu_t :=
  {| Legacy.registers := {| af := 0x01b0; bc := 0x0013; de := 0x00d8;
                            hl := 0x014d; sp := 0xfffe; pc := 0x0100 |};
     Legacy.m_cycles_total := 0; Legacy.m_cur_opcode := 0;
     Legacy.m_running := true; Legacy.m_halting := 0;
     Legacy.m_intr_master_enable := false;
     Legacy.m_intr_enable_pending := 0; Legacy.m_intr_disable_pending := 0;
     Legacy.m_last_flags := 0xb0; Legacy.m_break := false;
     Legacy.m_break_steps_cnt := 0; Legacy.m_break_steps := 0;
     Legacy.m_breakpoints := ∅ |}.

Definition legacy_power_on : Legacy.machine :=
  {| Legacy.cpu := legacy_power_on_cpu; Legacy.memory := load 0x0100 [0x00];
     Legacy.io := quiet_io; Legacy.verbose_instructions := false |}.

(** * Statements taken from the specification, for comparison *)

(** The state that the specification expects of [reset()], given
    whether a bootstrap ROM is present. *)
Definition reset_postcondition (bootrom : bool) (m : machine) : Prop :=
  let c := cpu m in
  let r := registers c in
  af r = 0x01b0 /\ bc r = 0x0013 /\ de r = 0x00d8 /\ hl r = 0x014d /\
  sp r = 0xfffe /\ pc r = (if bootrom then 0x0000 else 0x0100) /\
  m_cycles_total c = 0 /\ m_asleep c = false /\
  m_intr_master_enable c = false /\ m_intr_pending c = 0 /\
  m_haltbug c = 0 /\ m_cur_opcode c = 0.

(** The PC that the specification expects the handler to run with:
    one past the opcode, except while the HALT-bug counter is running. *)
Definition spec_handler_pc (m : machine) : Z :=
  if 0 <? m_haltbug (cpu m) then pc (registers (cpu m))
  else (pc (registers (cpu m)) + 1) mod 0x10000.

(** Priority of the interrupt sources: lower is served first. *)
Definition priority (i : interrupt_t) : nat :=
  match i with
  | vblank => 0 | lcd_stat => 1 | timer => 2 | serial => 3 | joypad => 4
  end%nat.

(** The debug harness has nothing to do in the coming step. *)
Definition debug_idle (m : machine) : Prop :=
  m_break (cpu m) = false /\ m_break_steps_cnt (cpu m) = 0 /\
  m_breakpoints (cpu m) = ∅.

(** What the scenarios ask of the environment's handlers: EI and DI
    call the CPU's entry points, NOP does nothing. *)
Definition ei_di_nop_handlers (env : environment) : Prop :=
  (forall m, fst (handler env instr_DI_EI m 0xfb) = enable_interrupts m) /\
  (forall m, fst (handler env instr_DI_EI m 0xf3) = disable_interrupts m) /\
  (forall m, fst (handler env instr_NOP m 0x00) = m).

(** [i] is the pending source of highest priority in [imask]. *)
Definition highest_pending (i : interrupt_t) (imask : Z) : Prop :=
  bit_set imask (mask i) = true /\
  forall j, (priority j < priority i)%nat -> bit_set imask (mask j) = false.

(** Between [before] and [after] the interrupt [i], and nothing else,
    was serviced: one more entry in the log, its request bit cleared,
    IME off with no toggle pending, the CPU awake at the vector, and the
    old PC on the stack, low byte first. *)
Definition interrupt_taken (i : interrupt_t) (before after : machine) : Prop :=
  serviced (io after) = serviced (io before) ++ [i] /\
  reg_if (io after) = Z.ldiff (reg_if (io before)) (mask i) /\
  ime after = false /\
  m_asleep (cpu after) = false /\
  m_intr_pending (cpu after) = 0 /\
  pc (registers (cpu after)) = fixed_address i /\
  sp (registers (cpu after)) = (sp (registers (cpu before)) - 2) mod 0x10000 /\
  read8 (memory after) (sp (registers (cpu after)))
    = Z.land (pc (registers (cpu before))) 0xff /\
  read8 (memory after) (sp (registers (cpu after)) + 1)
    = Z.land (Z.shiftr (pc (registers (cpu before))) 8) 0xff.

(** The part of the machine that the bookkeeping at the end of a step
    (the two countdowns, the clock, the flag log) never touches. *)
Definition context_of (m : machine)
  : registers_t * (Z -> Z) * io_t * bool * (bool * Z * gmap Z breakpoint_t) :=
  (registers (cpu m), memory m, io m, m_asleep (cpu m),
   (m_break (cpu m), m_break_steps_cnt (cpu m), m_breakpoints (cpu m))).

(** * More of the unit *)

Section Checks.

Variable env : environment.

(** [CPU::break_checks]: the debugging hooks as a function of their
    own.  It reads the opcode at PC itself where it needs one, and its
    early returns after a quit change nothing. *)
Definition break_checks (m : machine) (input : list string)
  : machine * list string :=
  let '(fire, m1) := break_time m in
  if fire then
    print_and_pause env (upd_cpu (set_break false) m1) input
  else if negb (bool_decide (m_breakpoints (cpu m1) = ∅)) then
    match m_breakpoints (cpu m1) !! pc (registers (cpu m1)) with
    | Some bp => run_callback env (callback bp) m1 (readop8 m1 0) input
    | None => (m1, input)
    end
  else (m1, input).

End Checks.

(** The answers of [n] calls of [break_time] in a row, and the machine
    after them. *)
Fixpoint break_times (n : nat) (m : machine) : list bool * machine :=
  match n with
  | O => ([], m)
  | S k =>
      let '(b, m1) := break_time m in
      let '(bs, m2) := break_times k m1 in
      (b :: bs, m2)
  end.

(** How often [ch] occurs in [txt]. *)
Fixpoint count_char (ch : ascii) (txt : string) : nat :=
  match txt with
  | EmptyString => 0
  | String c rest =>
      ((if Ascii.eqb c ch then 1 else 0) + count_char ch rest)%nat
  end.

(** The commands that [execute_commands] knows, and the empty word. *)
Definition known_commands : list string :=
  [ "c"; "continue"; ""; "s"; "step"; "b"; "break"; "clear"; "v";
    "verbose"; "r"; "run"; "q"; "quit"; "exit"; "reset"; "ld"; "read";
    "write"; "vblank"; "debug"; "help"; "?" ]%string.

(** ** The audio unit (apu.cpp)

    Register accesses that the unit does not handle print an error and
    fail an assertion: [None].  [REG_NR52] is declared in io.hpp, which
    is absent, and is a parameter. *)
Module APU.

Section Registers.

Variable REG_NR52 : Z.

(** [APU::read] *)
Definition read (addr reg : Z) : option Z :=
  if addr =? REG_NR52 then Some reg else None.

(** [APU::write]: the new value of the register. *)
Definition write (addr value reg : Z) : option Z :=
  if addr =? REG_NR52
  then Some (Z.lor (Z.land reg 0xF) (Z.land value 0x80))
  else None.

(** The test at the head of [APU::simulate]: with bit 7 of NR52 clear
    the unit does nothing. *)
Definition sound_off (nr52 : Z) : bool := Z.land nr52 0x80 =? 0.

End Registers.

End APU.

(** The machine of the variant with a breakpoint at 0x0100, without
    callback, asking for a step period of 5 and verbose mode. *)
Definition legacy_at_breakpoint : Legacy.machine :=
  Legacy.upd_cpu
    (fun c =>
       {| Legacy.registers := Legacy.registers c;
          Legacy.m_cycles_total := Legacy.m_cycles_total c;
          Legacy.m_cur_opcode := Legacy.m_cur_opcode c;
          Legacy.m_running := Legacy.m_running c;
          Legacy.m_halting := Legacy.m_halting c;
          Legacy.m_intr_master_enable := Legacy.m_intr_master_enable c;
          Legacy.m_intr_enable_pending := Legacy.m_intr_enable_pending c;
          Legacy.m_intr_disable_pending := Legacy.m_intr_disable_pending c;
          Legacy.m_last_flags := Legacy.m_last_flags c;
          Legacy.m_break := Legacy.m_break c;
          Legacy.m_break_steps_cnt := Legacy.m_break_steps_cnt c;
          Legacy.m_break_steps := Legacy.m_break_steps c;
          Legacy.m_breakpoints :=
            {[ 0x0100 := {| Legacy.callback := None;
                            Legacy.break_on_steps := 5;
                            Legacy.verbose_instr := true |} ]} |})
    legacy_power_on.

Definition legacy_env : Legacy.environment :=
  {| Legacy.handler := fun _ x _ => (x, 4);
     Legacy.run_callback := fun _ x _ => x |}.

(** EI; NOP with IME off and VBlank requested and enabled. *)
Definition ei_nop_vblank : machine := power_on [0xfb; 0x00] vblank_io.

(** A DI is about to land (countdown at -1) with IME still on and
    VBlank pending. *)
Definition di_landing : machine :=
  upd_cpu (fun c => set_intr_pending (-1) (set_intr_master_enable true c))
          (power_on [0x00] vblank_io).

(** Single-stepping: a step period of 3, freshly set. *)
Definition stepping_by_3 : machine :=
  break_on_steps 3 (power_on [0x00] quiet_io).


(** The one-shot break is armed with IME off and nothing requested,
    1000 T-states on the clock. *)
Definition break_armed_quiet : machine :=
  upd_cpu (fun c => set_cycles_total 1000 (set_break true c))
          (power_on [0x00] quiet_io).

(** * Properties of the decoder *)

Lemma instruction_eqb_eq (a b : instruction_t) :
  instruction_eqb a b = true <-> a = b.
Proof.
  split.
  - destruct a, b; simpl; intros H; first [reflexivity | discriminate H].
  - intros ->. destruct b; reflexivity.
Qed.

Lemma all_opcodes_complete (op : Z) : 0 <= op < 256 -> In op all_opcodes.
Proof.
  intros H. unfold all_opcodes.
  apply in_map_iff. exists (Z.to_nat op). split; [lia|].
  apply in_seq. lia.
Qed.

Lemma opcodes_of_spec (i : instruction_t) (op : Z) :
  0 <= op < 256 -> (decode op = i <-> In op (opcodes_of i)).
Proof.
  intros Hop. unfold opcodes_of. rewrite filter_In, instruction_eqb_eq.
  split; [intros H; split; [now apply all_opcodes_complete | exact H] | tauto].
Qed.

(** The CALL group is reached from 0xC4 by the rule commented "direct"
    and, by the rule commented "conditional", from the opcodes with the
    bits of 0xCD set that no earlier rule took. *)
Lemma decode_CALL_opcodes :
  opcodes_of instr_CALL = [0xc4; 0xcd; 0xdd; 0xed; 0xfd].
Proof. vm_compute. reflexivity. Qed.

Lemma decode_UNUSED_opcodes :
  opcodes_of instr_UNUSED_OPS = [0xdb; 0xe4; 0xeb; 0xec; 0xf4; 0xfc].
Proof. vm_compute. reflexivity. Qed.

(** The opcodes for which no rule matches. *)
Lemma decode_MISSING_opcodes :
  opcodes_of instr_MISSING = [0xcc; 0xd3; 0xd4; 0xdc; 0xe3].
Proof. vm_compute. reflexivity. Qed.

(** The variant decodes the CALL group from the same opcodes. *)
Lemma legacy_decode_CALL_opcodes :
  List.filter (fun op => instruction_eqb (Legacy.decode op) instr_CALL)
              all_opcodes
  = [0xc4; 0xcd; 0xdd; 0xed; 0xfd].
Proof. vm_compute. reflexivity. Qed.

(** C4, evaluated on the code.  Of the CALL family, the decoder sends
    only 0xCD and 0xC4 to the CALL group; the conditional calls 0xCC,
    0xD4 and 0xDC fall through every rule and reach [instr_MISSING]. *)
Theorem decode_call_family :
  decode 0xcd = instr_CALL /\ decode 0xc4 = instr_CALL /\
  decode 0xcc = instr_MISSING /\ decode 0xd4 = instr_MISSING /\
  decode 0xdc = instr_MISSING.
Proof. repeat split; reflexivity. Qed.

(** C5, evaluated on the code.  Of the eleven unused opcodes, six reach
    the no-op group; 0xD3 and 0xE3 reach [instr_MISSING], and 0xDD, 0xED
    and 0xFD are taken by the CALL rule on the bits of 0xCD. *)
Theorem decode_unused_opcodes :
  Forall (fun op => decode op = instr_UNUSED_OPS)
         [0xdb; 0xe4; 0xeb; 0xec; 0xf4; 0xfc] /\
  decode 0xd3 = instr_MISSING /\ decode 0xe3 = instr_MISSING /\
  decode 0xdd = instr_CALL /\ decode 0xed = instr_CALL /\
  decode 0xfd = instr_CALL.
Proof. repeat split; repeat constructor. Qed.

(** * Properties of [reset] *)

(** C6 as stated fails: [reset] leaves a CPU that was halted, with IME
    on and an EI pending, in that condition, whichever value of PC is
    expected. *)
Lemma reset_leaves_power_state :
  ~ reset_postcondition false (reset used_machine) /\
  ~ reset_postcondition true (reset used_machine).
Proof.
  split; intros (_ & _ & _ & _ & _ & _ & _ & Hasleep & _);
    vm_compute in Hasleep; discriminate Hasleep.
Qed.

(** C6, amended.  [reset] sets AF, BC, DE, HL and SP to the boot
    values, PC to 0x0000 and the cycle counter to 0, and leaves every
    other member, the memory and the I/O unit as they were. *)
Theorem reset_establishes (m : machine) :
  registers (cpu (reset m)) =
    {| af := 0x01b0; bc := 0x0013; de := 0x00d8; hl := 0x014d;
       sp := 0xfffe; pc := 0x0000 |} /\
  m_cycles_total (cpu (reset m)) = 0 /\
  m_asleep (cpu (reset m)) = m_asleep (cpu m) /\
  m_intr_master_enable (cpu (reset m)) = m_intr_master_enable (cpu m) /\
  m_intr_pending (cpu (reset m)) = m_intr_pending (cpu m) /\
  m_haltbug (cpu (reset m)) = m_haltbug (cpu m) /\
  m_cur_opcode (cpu (reset m)) = m_cur_opcode (cpu m) /\
  m_running (cpu (reset m)) = m_running (cpu m) /\
  memory (reset m) = memory m /\ io (reset m) = io m.
Proof. repeat split. Qed.

(** X24.  The variant's [reset] differs in the PC only: it sets 0x0100,
    and like the newer one it leaves the power and interrupt state as
    it was. *)
Lemma legacy_reset_establishes (m : Legacy.machine) :
  Legacy.registers (Legacy.cpu (Legacy.reset m)) =
    {| af := 0x01b0; bc := 0x0013; de := 0x00d8; hl := 0x014d;
       sp := 0xfffe; pc := 0x0100 |} /\
  Legacy.m_cycles_total (Legacy.cpu (Legacy.reset m)) = 0 /\
  Legacy.m_halting (Legacy.cpu (Legacy.reset m)) =
    Legacy.m_halting (Legacy.cpu m) /\
  Legacy.m_intr_master_enable (Legacy.cpu (Legacy.reset m)) =
    Legacy.m_intr_master_enable (Legacy.cpu m) /\
  Legacy.m_intr_enable_pending (Legacy.cpu (Legacy.reset m)) =
    Legacy.m_intr_enable_pending (Legacy.cpu m) /\
  Legacy.m_intr_disable_pending (Legacy.cpu (Legacy.reset m)) =
    Legacy.m_intr_disable_pending (Legacy.cpu m) /\
  Legacy.m_cur_opcode (Legacy.cpu (Legacy.reset m)) =
    Legacy.m_cur_opcode (Legacy.cpu m).
Proof. repeat split. Qed.

(** * Properties of the memory bus *)

Lemma land_ff_mod (x : Z) : Z.land x 0xff = x mod 0x100.
Proof. change 0xff with (Z.ones 8). now rewrite Z.land_ones by lia. Qed.

Lemma land_ff_small (x : Z) : (Z.land x 0xff) mod 0x100 = Z.land x 0xff.
Proof. rewrite land_ff_mod. apply Z.mod_mod. lia. Qed.

Lemma next_address_differs (a : Z) : (a + 1) mod 0x10000 <> a mod 0x10000.
Proof. Z.div_mod_to_equations. lia. Qed.

Lemma read8_write8_same (mem : Z -> Z) (a v : Z) :
  read8 (write8 mem a v) a = v mod 0x100.
Proof.
  unfold read8, write8. rewrite Z.eqb_refl. apply Z.mod_mod. lia.
Qed.

Lemma read8_write8_other (mem : Z -> Z) (a b v : Z) :
  b mod 0x10000 <> a mod 0x10000 ->
  read8 (write8 mem a v) b = read8 mem b.
Proof.
  intros H. unfold read8, write8.
  destruct (Z.eqb_spec (b mod 0x10000) (a mod 0x10000)); [contradiction|].
  reflexivity.
Qed.

(** [write16] is little-endian: the low byte at [addr], the high byte at
    the next address. *)
Lemma read8_write16_low (mem : Z -> Z) (a v : Z) :
  read8 (write16 mem a v) a = Z.land v 0xff.
Proof.
  unfold write16. rewrite read8_write8_other.
  - rewrite read8_write8_same. apply land_ff_small.
  - intros H. symmetry in H. now apply next_address_differs in H.
Qed.

Lemma read8_write16_high (mem : Z -> Z) (a v : Z) :
  read8 (write16 mem a v) (a + 1) = Z.land (Z.shiftr v 8) 0xff.
Proof.
  unfold write16. rewrite read8_write8_same. apply land_ff_small.
Qed.

(** * Properties of the interrupt client *)

(** A non-zero mask of five bits has one of its bits set. *)
Lemma interrupt_mask_bits (o : io_t) :
  interrupt_mask o <> 0 ->
  bit_set (interrupt_mask o) 0x1 = true \/
  bit_set (interrupt_mask o) 0x2 = true \/
  bit_set (interrupt_mask o) 0x4 = true \/
  bit_set (interrupt_mask o) 0x8 = true \/
  bit_set (interrupt_mask o) 0x10 = true.
Proof.
  unfold interrupt_mask.
  set (x := Z.land (reg_if o) (reg_ie o)).
  change 0x1f with (Z.ones 5). rewrite Z.land_ones by lia.
  assert (Hr : 0 <= x mod 2 ^ 5 < 32) by (apply Z.mod_pos_bound; lia).
  generalize dependent (x mod 2 ^ 5). intros y Hy Hnz.
  assert (Hcases : In y (List.map Z.of_nat (seq 1 31))).
  { apply in_map_iff. exists (Z.to_nat y). split; [lia|]. apply in_seq. lia. }
  cbv [seq List.map] in Hcases. simpl in Hcases.
  repeat (destruct Hcases as [<- | Hcases];
          [vm_compute; tauto |]).
  contradiction.
Qed.

(** The third block of [handle_interrupts] touches the HALT-bug counter
    only. *)
Lemma haltbug_countdown_frame (m : machine) :
  registers (cpu (haltbug_countdown m)) = registers (cpu m) /\
  memory (haltbug_countdown m) = memory m /\
  io (haltbug_countdown m) = io m /\
  ime (haltbug_countdown m) = ime m /\
  m_asleep (cpu (haltbug_countdown m)) = m_asleep (cpu m) /\
  m_intr_pending (cpu (haltbug_countdown m)) = m_intr_pending (cpu m) /\
  m_cycles_total (cpu (haltbug_countdown m)) = m_cycles_total (cpu m) /\
  m_running (cpu (haltbug_countdown m)) = m_running (cpu m).
Proof.
  unfold haltbug_countdown.
  destruct (negb (m_asleep (cpu m))), (negb (m_haltbug (cpu m) =? 0));
    repeat split.
Qed.

(** The first block touches IME and its countdown only. *)
Lemma ime_countdown_frame (m : machine) :
  registers (cpu (ime_countdown m)) = registers (cpu m) /\
  memory (ime_countdown m) = memory m /\
  io (ime_countdown m) = io m /\
  m_asleep (cpu (ime_countdown m)) = m_asleep (cpu m) /\
  m_haltbug (cpu (ime_countdown m)) = m_haltbug (cpu m) /\
  m_cycles_total (cpu (ime_countdown m)) = m_cycles_total (cpu m) /\
  m_running (cpu (ime_countdown m)) = m_running (cpu m).
Proof.
  unfold ime_countdown.
  destruct (0 <? m_intr_pending (cpu m)); [|destruct (m_intr_pending (cpu m) <? 0)];
    cbn; try (repeat split; fail);
    match goal with |- context [if ?b then _ else _] => destruct b end;
    repeat split.
Qed.

(** The effect of [IO::interrupt] right after the dispatch cleared IME,
    the countdown and the sleep flag. *)
Lemma interrupt_after_clear (i : interrupt_t) (m : machine) :
  interrupt_taken i m
    (interrupt i
       (upd_cpu (fun c => set_intr_pending 0
                   (set_intr_master_enable false (set_asleep false c))) m)).
Proof.
  unfold interrupt_taken, interrupt, push_and_jump, ime. cbn.
  repeat split.
  - apply read8_write16_low.
  - apply read8_write16_high.
Qed.

(** The second block, when it fires: it services the pending source of
    highest priority. *)
Lemma dispatch_services (m : machine) :
  ime m = true -> interrupt_mask (io m) <> 0 ->
  exists i, highest_pending i (interrupt_mask (io m)) /\
            interrupt_taken i m (dispatch_interrupts m).
Proof.
  intros Hime Hmask. unfold dispatch_interrupts. rewrite Hime.
  destruct (Z.eqb_spec (interrupt_mask (io m)) 0) as [E|_]; [contradiction|].
  cbn [andb negb].
  pose proof (interrupt_mask_bits (io m) Hmask) as Hbits.
  destruct (bit_set (interrupt_mask (io m)) 0x1) eqn:B1.
  { exists vblank. split; [split; [exact B1 | intros j Hj; destruct j; simpl in Hj; lia] |
                           apply interrupt_after_clear]. }
  destruct (bit_set (interrupt_mask (io m)) 0x2) eqn:B2.
  { exists lcd_stat. split; [split; [exact B2 | intros j Hj; destruct j; simpl in Hj; try lia; assumption] |
                             apply interrupt_after_clear]. }
  destruct (bit_set (interrupt_mask (io m)) 0x4) eqn:B3.
  { exists timer. split; [split; [exact B3 | intros j Hj; destruct j; simpl in Hj; try lia; assumption] |
                          apply interrupt_after_clear]. }
  destruct (bit_set (interrupt_mask (io m)) 0x8) eqn:B4.
  { exists serial. split; [split; [exact B4 | intros j Hj; destruct j; simpl in Hj; try lia; assumption] |
                           apply interrupt_after_clear]. }
  destruct (bit_set (interrupt_mask (io m)) 0x10) eqn:B5.
  { exists joypad. split; [split; [exact B5 | intros j Hj; destruct j; simpl in Hj; try lia; assumption] |
                           apply interrupt_after_clear]. }
  exfalso. destruct Hbits as [H|[H|[H|[H|H]]]]; discriminate H.
Qed.

(** Otherwise the second block does nothing. *)
Lemma dispatch_idle (m : machine) :
  ime m = false \/ interrupt_mask (io m) = 0 -> dispatch_interrupts m = m.
Proof.
  intros [H|H]; unfold dispatch_interrupts; rewrite H.
  - reflexivity.
  - rewrite andb_false_r. reflexivity.
Qed.

Lemma interrupt_taken_same_before (i : interrupt_t) (b1 b2 after : machine) :
  registers (cpu b1) = registers (cpu b2) -> io b1 = io b2 ->
  interrupt_taken i b1 after -> interrupt_taken i b2 after.
Proof.
  unfold interrupt_taken. intros Hr Hio. rewrite Hr, Hio. tauto.
Qed.

Lemma interrupt_taken_haltbug (i : interrupt_t) (before after : machine) :
  interrupt_taken i before after ->
  interrupt_taken i before (haltbug_countdown after).
Proof.
  unfold interrupt_taken, ime.
  destruct (haltbug_countdown_frame after)
    as (Hr & Hm & Hio & Hime & Has & Hp & _).
  unfold ime in Hime. rewrite Hr, Hm, Hio, Hime, Has, Hp. tauto.
Qed.

(** [handle_interrupts] when IME is on after the delayed toggle and an
    enabled interrupt is pending. *)
Lemma handle_interrupts_services (m : machine) :
  ime (ime_countdown m) = true -> interrupt_mask (io m) <> 0 ->
  exists i, highest_pending i (interrupt_mask (io m)) /\
            interrupt_taken i m (handle_interrupts m).
Proof.
  intros Hime Hmask.
  destruct (ime_countdown_frame m) as (Hr & _ & Hio & _).
  destruct (dispatch_services (ime_countdown m) Hime) as (i & Hi & Ht).
  { now rewrite Hio. }
  exists i. rewrite Hio in Hi. split; [exact Hi|].
  unfold handle_interrupts. apply interrupt_taken_haltbug.
  now apply (interrupt_taken_same_before i (ime_countdown m) m).
Qed.

(** [handle_interrupts] when IME is off after the delayed toggle, or
    nothing is pending: only the two countdowns run. *)
Lemma handle_interrupts_idle (m : machine) :
  ime (ime_countdown m) = false \/ interrupt_mask (io m) = 0 ->
  handle_interrupts m = haltbug_countdown (ime_countdown m).
Proof.
  intros H. unfold handle_interrupts. rewrite dispatch_idle; [reflexivity|].
  destruct (ime_countdown_frame m) as (_ & _ & Hio & _). now rewrite Hio.
Qed.

(** The countdown moves one step towards zero. *)
Lemma ime_countdown_pending (m : machine) :
  m_intr_pending (cpu (ime_countdown m))
  = m_intr_pending (cpu m) - Z.sgn (m_intr_pending (cpu m)).
Proof.
  unfold ime_countdown.
  destruct (Z.ltb_spec 0 (m_intr_pending (cpu m))) as [Hp|Hp].
  - cbn. rewrite Z.sgn_pos by lia.
    destruct (m_intr_pending (cpu m) - 1 =? 0); reflexivity.
  - destruct (Z.ltb_spec (m_intr_pending (cpu m)) 0) as [Hn|Hn].
    + cbn. rewrite Z.sgn_neg by lia.
      destruct (m_intr_pending (cpu m) + 1 =? 0); cbn; lia.
    + assert (E : m_intr_pending (cpu m) = 0) by lia. rewrite E. reflexivity.
Qed.

(** Passing time commutes with the delayed toggle. *)
Lemma ime_countdown_incr_cycles (n : Z) (m : machine) :
  ime_countdown (incr_cycles n m) = incr_cycles n (ime_countdown m).
Proof.
  unfold ime_countdown. cbn.
  destruct (0 <? m_intr_pending (cpu m)); [|destruct (m_intr_pending (cpu m) <? 0)];
    try reflexivity;
    match goal with |- context [if ?b then _ else _] => destruct b end;
    reflexivity.
Qed.

(** The test [imask & bit] of the dispatch is the test of one bit of
    the mask: bit 0 for VBlank up to bit 4 for Joypad. *)
Lemma bit_set_testbit (imask : Z) (i : interrupt_t) :
  bit_set imask (mask i) = Z.testbit imask (Z.of_nat (priority i)).
Proof.
  assert (H : forall k, 0 <= k ->
            negb (Z.land imask (2 ^ k) =? 0) = Z.testbit imask k).
  { intros k Hk.
    assert (E : Z.land imask (2 ^ k)
                = if Z.testbit imask k then 2 ^ k else 0).
    { apply Z.bits_inj'. intros n Hn.
      rewrite Z.land_spec, Z.pow2_bits_eqb by lia.
      destruct (Z.eqb_spec k n) as [->|Hne].
      - rewrite andb_true_r. destruct (Z.testbit imask n).
        + rewrite Z.pow2_bits_eqb by lia. now rewrite Z.eqb_refl.
        + now rewrite Z.bits_0.
      - rewrite andb_false_r. destruct (Z.testbit imask k).
        + rewrite Z.pow2_bits_eqb by lia.
          symmetry. now apply Z.eqb_neq.
        + now rewrite Z.bits_0. }
    rewrite E. destruct (Z.testbit imask k); [|reflexivity].
    assert (0 < 2 ^ k) by (apply Z.pow_pos_nonneg; lia).
    destruct (Z.eqb_spec (2 ^ k) 0); [lia | reflexivity]. }
  unfold bit_set.
  destruct i; [apply (H 0) | apply (H 1) | apply (H 2) | apply (H 3)
               | apply (H 4)]; lia.
Qed.

(** C1 as stated fails: IME is on and VBlank is requested and enabled
    when the step reaches [handle_interrupts], but a DI is about to
    land (the countdown stands at -1); the toggle turns IME off first
    and the step services nothing. *)
Lemma di_landing_step_services_nothing :
  ime (fst (simulate_instruction scenario_env di_landing [])) = true /\
  interrupt_mask (io (fst (simulate_instruction scenario_env di_landing []))) <> 0 /\
  serviced (io (fst (simulate scenario_env di_landing []))) = [] /\
  ~ exists i,
      interrupt_taken i (fst (simulate_instruction scenario_env di_landing []))
        (fst (simulate scenario_env di_landing [])).
Proof.
  split; [reflexivity|]. split; [vm_compute; discriminate|].
  split; [reflexivity|].
  intros (i & Hs & _). vm_compute in Hs. destruct i; discriminate Hs.
Qed.

(** C1, amended.  When IME is on where [handle_interrupts] tests it,
    that is once the delayed toggle of that step was applied, and an
    enabled interrupt is pending, the step services exactly one
    interrupt, the pending source of highest priority in the order
    VBlank, LCD STAT, Timer, Serial, Joypad.  After the step IME is
    off, the CPU is awake, no toggle is pending, PC is the vector of
    that source, SP went down by two and the PC from before the
    interrupt is on the stack, low byte first. *)
Theorem simulate_services_highest_priority
    (env : environment) (m : machine) (input : list string) :
  let before := fst (simulate_instruction env m input) in
  ime (ime_countdown before) = true ->
  interrupt_mask (io before) <> 0 ->
  exists i,
    highest_pending i (interrupt_mask (io before)) /\
    interrupt_taken i before (fst (simulate env m input)).
Proof.
  intros before Hime Hmask. unfold simulate. subst before.
  destruct (simulate_instruction env m input) as [m1 input1]. cbn in *.
  now apply handle_interrupts_services.
Qed.

Lemma simulate_services_highest_priority_witness :
  ime (ime_countdown (fst (simulate_instruction scenario_env nop_with_pending []))) = true /\
  interrupt_mask (io (fst (simulate_instruction scenario_env nop_with_pending []))) <> 0 /\
  exists i,
    highest_pending i
      (interrupt_mask (io (fst (simulate_instruction scenario_env nop_with_pending [])))) /\
    interrupt_taken i (fst (simulate_instruction scenario_env nop_with_pending []))
      (fst (simulate scenario_env nop_with_pending [])).
Proof.
  split; [reflexivity|]. split; [vm_compute; discriminate|].
  apply (simulate_services_highest_priority scenario_env nop_with_pending []).
  - reflexivity.
  - vm_compute. discriminate.
Defined.

(** The source of highest priority is determined by the mask. *)
Lemma highest_pending_unique (i j : interrupt_t) (imask : Z) :
  highest_pending i imask -> highest_pending j imask -> i = j.
Proof.
  intros [Hi Hli] [Hj Hlj].
  destruct (lt_eq_lt_dec (priority i) (priority j)) as [[H|H]|H].
  - rewrite (Hlj i H) in Hi. discriminate.
  - destruct i, j; simpl in H; congruence.
  - rewrite (Hli j H) in Hj. discriminate.
Qed.

(** X6.  The toggle is applied first: with IME on at the start of
    [handle_interrupts] but a DI about to take effect, the pending
    interrupt is not serviced. *)
Lemma handle_interrupts_di_wins (m : machine) :
  m_intr_pending (cpu m) = -1 ->
  ime (handle_interrupts m) = false /\
  serviced (io (handle_interrupts m)) = serviced (io m) /\
  registers (cpu (handle_interrupts m)) = registers (cpu m).
Proof.
  intros Hp.
  assert (Hc : ime (ime_countdown m) = false).
  { unfold ime_countdown. rewrite Hp. reflexivity. }
  rewrite handle_interrupts_idle by (left; exact Hc).
  destruct (haltbug_countdown_frame (ime_countdown m)) as (Hr & _ & Hio & Hi & _).
  destruct (ime_countdown_frame m) as (Hr' & _ & Hio' & _).
  rewrite Hi, Hr, Hio, Hc, Hr', Hio'. repeat split.
Qed.

(** * Properties of a step *)

(** A step of a halted CPU: time passes, then the interrupts are
    looked at. *)
Lemma simulate_halted (env : environment) (m : machine) (input : list string) :
  is_halting m = true ->
  simulate env m input = (handle_interrupts (incr_cycles 4 m), input).
Proof.
  intros H. unfold simulate, simulate_instruction. rewrite H. reflexivity.
Qed.

(** A step of a CPU that is awake, in terms of [execute]. *)
Lemma simulate_awake (env : environment) (m : machine) (input : list string) :
  is_halting m = false ->
  simulate env m input =
    (let '(m2, time, input') :=
       execute env (upd_cpu (set_cur_opcode (readop8 m 0)) m) (readop8 m 0) input in
     (handle_interrupts (incr_cycles time m2), input')).
Proof.
  intros H. unfold simulate, simulate_instruction. rewrite H. cbn.
  destruct (execute env _ _ input) as [[m2 time] input']. reflexivity.
Qed.

(** [handle_interrupts] leaves the clock and the running flag alone. *)
Lemma handle_interrupts_cycles (m : machine) :
  m_cycles_total (cpu (handle_interrupts m)) = m_cycles_total (cpu m) /\
  m_running (cpu (handle_interrupts m)) = m_running (cpu m).
Proof.
  unfold handle_interrupts.
  destruct (haltbug_countdown_frame (dispatch_interrupts (ime_countdown m)))
    as (_ & _ & _ & _ & _ & _ & Hc & Hr).
  destruct (ime_countdown_frame m) as (_ & _ & _ & _ & _ & Hc' & Hr').
  rewrite Hc, Hr, <- Hc', <- Hr'.
  generalize (ime_countdown m). intros x. unfold dispatch_interrupts.
  destruct (ime x && negb (interrupt_mask (io x) =? 0)); [|split; reflexivity].
  repeat match goal with |- context [if ?b then _ else _] => destruct b end;
    split; reflexivity.
Qed.

(** C7 as stated fails: halted with IME off and VBlank requested and
    enabled, the CPU is still asleep after the step. *)
Lemma halted_ime_off_stays_asleep :
  m_asleep (cpu halted_ime_off) = true /\
  interrupt_mask (io halted_ime_off) <> 0 /\
  m_asleep (cpu (fst (simulate scenario_env halted_ime_off []))) <> false.
Proof. repeat split; vm_compute; discriminate. Qed.

(** C7, amended.  A step of a halted CPU clears [asleep] exactly when an
    enabled interrupt is pending and IME is on once the delayed toggle
    of that step was applied; with IME off the CPU stays asleep. *)
Theorem halted_wakes_iff_ime
    (env : environment) (m : machine) (input : list string) :
  m_asleep (cpu m) = true ->
  (m_asleep (cpu (fst (simulate env m input))) = false <->
   ime (ime_countdown m) = true /\ interrupt_mask (io m) <> 0).
Proof.
  intros Has. rewrite simulate_halted by exact Has. cbn [fst].
  assert (Hime : ime (ime_countdown (incr_cycles 4 m)) = ime (ime_countdown m)).
  { rewrite ime_countdown_incr_cycles. reflexivity. }
  split.
  - intros Hawake.
    destruct (ime (ime_countdown m)) eqn:Hi;
      [destruct (Z.eq_dec (interrupt_mask (io m)) 0) as [Hz|Hz]; [|now split] |];
      exfalso;
      (rewrite handle_interrupts_idle in Hawake
         by (first [left; exact Hime | right; exact Hz]));
      destruct (haltbug_countdown_frame (ime_countdown (incr_cycles 4 m)))
        as (_ & _ & _ & _ & Ha & _);
      destruct (ime_countdown_frame (incr_cycles 4 m))
        as (_ & _ & _ & Ha' & _);
      rewrite Ha, Ha' in Hawake; cbn in Hawake; congruence.
  - intros [Hi Hmask].
    destruct (handle_interrupts_services (incr_cycles 4 m)) as (i & _ & Ht).
    + now rewrite Hime.
    + exact Hmask.
    + apply Ht.
Qed.

Lemma halted_wakes_iff_ime_witness :
  m_asleep (cpu halted_ime_on) = true /\
  (m_asleep (cpu (fst (simulate scenario_env halted_ime_on []))) = false <->
   ime (ime_countdown halted_ime_on) = true /\
   interrupt_mask (io halted_ime_on) <> 0).
Proof.
  split; [reflexivity|].
  apply (halted_wakes_iff_ime scenario_env halted_ime_on []). reflexivity.
Defined.

(** C10.  When the break of a step ends with the user's quit, the same
    call of [simulate] still runs [handle_interrupts] on the state the
    console left: no time is added, the CPU stays stopped, the delayed
    IME toggle moves one step before the dispatch looks at IME, and with
    IME on and an enabled interrupt pending that interrupt is serviced,
    which turns IME off, wakes the CPU and moves PC to the vector. *)
Theorem quit_at_break_still_handles_interrupts
    (env : environment) (m m1 m2 : machine) (input input' : list string) :
  is_halting m = false ->
  break_time (upd_cpu (set_cur_opcode (readop8 m 0)) m) = (true, m1) ->
  print_and_pause env (upd_cpu (set_break false) m1) input = (m2, input') ->
  is_running m2 = false ->
  let after := fst (simulate env m input) in
  let toggled := ime_countdown (incr_cycles 0 m2) in
  simulate env m input
    = (haltbug_countdown (dispatch_interrupts toggled), input') /\
  m_intr_pending (cpu toggled)
    = m_intr_pending (cpu m2) - Z.sgn (m_intr_pending (cpu m2)) /\
  is_running after = false /\
  (ime (ime_countdown m2) = false \/ interrupt_mask (io m2) = 0 ->
     m_intr_pending (cpu after) = m_intr_pending (cpu toggled) /\
     registers (cpu after) = registers (cpu m2)) /\
  (ime (ime_countdown m2) = true -> interrupt_mask (io m2) <> 0 ->
     exists i, highest_pending i (interrupt_mask (io m2)) /\
               interrupt_taken i m2 after).
Proof.
  intros Hh Hb Hp Hq after toggled.
  assert (E : simulate env m input = (handle_interrupts (incr_cycles 0 m2), input')).
  { rewrite simulate_awake by exact Hh.
    unfold execute, execute_break_checks. rewrite Hb, Hp, Hq. reflexivity. }
  subst after. rewrite E. cbn [fst].
  assert (Hime : ime (ime_countdown (incr_cycles 0 m2)) = ime (ime_countdown m2)).
  { rewrite ime_countdown_incr_cycles. reflexivity. }
  assert (Hpend : m_intr_pending (cpu toggled)
                  = m_intr_pending (cpu m2) - Z.sgn (m_intr_pending (cpu m2))).
  { subst toggled. rewrite ime_countdown_pending. reflexivity. }
  split; [reflexivity|]. split; [exact Hpend|]. split; [|split].
  - unfold is_running.
    rewrite (proj2 (handle_interrupts_cycles (incr_cycles 0 m2))). exact Hq.
  - intros Hidle.
    rewrite handle_interrupts_idle
      by (destruct Hidle as [H|H]; [left; now rewrite Hime | right; exact H]).
    destruct (haltbug_countdown_frame (ime_countdown (incr_cycles 0 m2)))
      as (Hr & _ & _ & _ & _ & Hpd & _).
    destruct (ime_countdown_frame (incr_cycles 0 m2)) as (Hr' & _).
    rewrite Hpd, Hr, Hr'. split; reflexivity.
  - intros Hi Hmask.
    destruct (handle_interrupts_services (incr_cycles 0 m2)) as (i & Hhp & Ht).
    + now rewrite Hime.
    + exact Hmask.
    + exists i. split; [exact Hhp|].
      now apply (interrupt_taken_same_before i (incr_cycles 0 m2) m2).
Qed.

Lemma quit_at_break_still_handles_interrupts_witness :
  is_halting break_armed = false /\
  break_time (upd_cpu (set_cur_opcode (readop8 break_armed 0)) break_armed)
    = (true, break_armed) /\
  print_and_pause scenario_env (upd_cpu (set_break false) break_armed)
                  ["q"%string]
    = (stop (upd_cpu (set_break false) break_armed), []) /\
  is_running (stop (upd_cpu (set_break false) break_armed)) = false /\
  ime (ime_countdown (stop (upd_cpu (set_break false) break_armed))) = true /\
  interrupt_mask (io (stop (upd_cpu (set_break false) break_armed))) <> 0 /\
  is_running (fst (simulate scenario_env break_armed ["q"%string])) = false /\
  exists i,
    highest_pending i
      (interrupt_mask (io (stop (upd_cpu (set_break false) break_armed)))) /\
    interrupt_taken i (stop (upd_cpu (set_break false) break_armed))
      (fst (simulate scenario_env break_armed ["q"%string])).
Proof.
  pose proof (quit_at_break_still_handles_interrupts scenario_env break_armed
                break_armed (stop (upd_cpu (set_break false) break_armed))
                ["q"%string] [] eq_refl eq_refl eq_refl eq_refl)
    as (_ & _ & Hstopped & _ & Hserviced).
  assert (Hmask : interrupt_mask
                    (io (stop (upd_cpu (set_break false) break_armed))) <> 0)
    by (vm_compute; discriminate).
  split; [reflexivity|]. split; [reflexivity|]. split; [reflexivity|].
  split; [reflexivity|]. split; [reflexivity|]. split; [exact Hmask|].
  split; [exact Hstopped|].
  exact (Hserviced eq_refl Hmask).
Defined.

(** With the debug harness idle the hooks of [execute] do nothing. *)
Lemma execute_break_checks_idle
    (env : environment) (m : machine) (opcode : Z) (input : list string) :
  debug_idle m -> execute_break_checks env m opcode input = (m, input, false).
Proof.
  intros (Hb & Hc & Hbp). unfold execute_break_checks, break_time.
  rewrite Hb, Hc. cbn. rewrite Hbp. reflexivity.
Qed.

(** [execute] past its hooks: decode, advance PC, run the handler. *)
Lemma execute_runs_handler
    (env : environment) (m m1 : machine) (opcode : Z)
    (input input1 : list string) :
  execute_break_checks env m opcode input = (m1, input1, false) ->
  execute env m opcode input =
    (log_flags (fst (handler env (decode opcode) (increment_pc m1) opcode)),
     snd (handler env (decode opcode) (increment_pc m1) opcode), input1).
Proof.
  intros H. unfold execute. rewrite H.
  destruct (handler env (decode opcode) (increment_pc m1) opcode). reflexivity.
Qed.

(** The HALT-bug counter over [handle_interrupts]: one down, not below
    zero, when the CPU is awake at the end. *)
Lemma handle_interrupts_haltbug (m : machine) :
  m_haltbug (cpu (handle_interrupts m)) =
    if m_asleep (cpu (handle_interrupts m)) then m_haltbug (cpu m)
    else if m_haltbug (cpu m) =? 0 then 0 else m_haltbug (cpu m) - 1.
Proof.
  unfold handle_interrupts.
  assert (Hd : m_haltbug (cpu (dispatch_interrupts (ime_countdown m)))
               = m_haltbug (cpu m)).
  { destruct (ime_countdown_frame m) as (_ & _ & _ & _ & Hh & _).
    rewrite <- Hh. generalize (ime_countdown m). intros x.
    unfold dispatch_interrupts.
    destruct (ime x && negb (interrupt_mask (io x) =? 0)); [|reflexivity].
    repeat match goal with |- context [if ?b then _ else _] => destruct b end;
      reflexivity. }
  generalize dependent (dispatch_interrupts (ime_countdown m)).
  intros d Hd. unfold haltbug_countdown.
  destruct (m_asleep (cpu d)) eqn:Ha; cbn.
  - rewrite Ha. exact Hd.
  - rewrite Hd. destruct (Z.eqb_spec (m_haltbug (cpu m)) 0) as [E|E]; cbn.
    + rewrite Ha. congruence.
    + rewrite Ha. reflexivity.
Qed.

(** C2 as stated fails: with the HALT-bug counter at 1 the handler is
    still entered with PC one past the opcode, not with the PC of the
    opcode as the exception asks. *)
Lemma halt_bug_increment_not_suppressed :
  0 < m_haltbug (cpu after_halt) /\
  snd (fst (execute pc_probe_env after_halt 0x3c [])) = 0x0101 /\
  snd (fst (execute pc_probe_env after_halt 0x3c []))
    <> spec_handler_pc after_halt.
Proof. repeat split; vm_compute; discriminate. Qed.

(** C2, amended.  In every step that executes an instruction the
    handler is entered with PC advanced by exactly 1 (on 16 bits) past
    the PC the debug hooks left, whatever the HALT-bug counter is: the
    counter plays no part in the fetch.  It is counted down, not below
    zero, at the end of each step that leaves the CPU awake. *)
Theorem simulate_advances_pc
    (env : environment) (m m1 : machine) (input input1 : list string) :
  is_halting m = false ->
  execute_break_checks env (upd_cpu (set_cur_opcode (readop8 m 0)) m)
                       (readop8 m 0) input = (m1, input1, false) ->
  let m_in := increment_pc m1 in
  let out := handler env (decode (readop8 m 0)) m_in (readop8 m 0) in
  let after := fst (simulate env m input) in
  pc (registers (cpu m_in)) = (pc (registers (cpu m1)) + 1) mod 0x10000 /\
  m_haltbug (cpu m_in) = m_haltbug (cpu m1) /\
  simulate env m input =
    (handle_interrupts (incr_cycles (snd out) (log_flags (fst out))), input1) /\
  m_haltbug (cpu after) =
    if m_asleep (cpu after) then m_haltbug (cpu (fst out))
    else if m_haltbug (cpu (fst out)) =? 0 then 0
         else m_haltbug (cpu (fst out)) - 1.
Proof.
  intros Hh Hc m_in out after.
  assert (E : simulate env m input =
              (handle_interrupts (incr_cycles (snd out) (log_flags (fst out))),
               input1)).
  { rewrite simulate_awake by exact Hh.
    rewrite (execute_runs_handler env _ m1 _ input input1 Hc). reflexivity. }
  repeat split; try exact E.
  subst after. rewrite E. cbn [fst]. rewrite handle_interrupts_haltbug.
  assert (Hl : m_haltbug (cpu (incr_cycles (snd out) (log_flags (fst out))))
               = m_haltbug (cpu (fst out))).
  { unfold log_flags.
    repeat match goal with |- context [if ?b then _ else _] => destruct b end;
      reflexivity. }
  rewrite Hl. reflexivity.
Qed.

Lemma simulate_advances_pc_witness :
  is_halting after_halt = false /\
  execute_break_checks pc_probe_env
    (upd_cpu (set_cur_opcode (readop8 after_halt 0)) after_halt)
    (readop8 after_halt 0) []
  = (upd_cpu (set_cur_opcode 0x3c) after_halt, [], false) /\
  pc (registers (cpu (increment_pc (upd_cpu (set_cur_opcode 0x3c) after_halt))))
  = 0x0101 /\
  m_haltbug (cpu (increment_pc (upd_cpu (set_cur_opcode 0x3c) after_halt))) = 1 /\
  m_haltbug (cpu (fst (simulate pc_probe_env after_halt []))) = 0.
Proof.
  pose proof (simulate_advances_pc pc_probe_env after_halt
                (upd_cpu (set_cur_opcode 0x3c) after_halt) [] []
                eq_refl eq_refl) as (Hpc & Hhb & _ & Hafter).
  split; [reflexivity|]. split; [reflexivity|].
  split; [exact Hpc|]. split; [exact Hhb|].
  rewrite Hafter. reflexivity.
Defined.

(** [handle_interrupts] leaves the clock alone when it services
    nothing. *)
Lemma handle_interrupts_idle_cycles (m : machine) :
  ime (ime_countdown m) = false \/ interrupt_mask (io m) = 0 ->
  m_cycles_total (cpu (handle_interrupts m)) = m_cycles_total (cpu m).
Proof.
  intros H. rewrite (handle_interrupts_idle m H).
  destruct (haltbug_countdown_frame (ime_countdown m))
    as (_ & _ & _ & _ & _ & _ & Hc & _).
  destruct (ime_countdown_frame m) as (_ & _ & _ & _ & _ & Hc' & _).
  congruence.
Qed.

(** Passing time does not change whether the dispatch fires. *)
Lemma no_service_incr_cycles (n : Z) (m : machine) :
  ime (ime_countdown m) = false \/ interrupt_mask (io m) = 0 ->
  ime (ime_countdown (incr_cycles n m)) = false \/
  interrupt_mask (io (incr_cycles n m)) = 0.
Proof.
  intros [H|H]; [left | right].
  - rewrite ime_countdown_incr_cycles. exact H.
  - exact H.
Qed.

(** C8 as stated fails: a running CPU, with IME off and nothing
    requested, whose step stops at a break that the user leaves with
    quit ends the step with the clock where it was. *)
Lemma quit_step_adds_no_cycles :
  is_running break_armed_quiet = true /\
  is_halting break_armed_quiet = false /\
  interrupt_mask (io break_armed_quiet) = 0 /\
  serviced (io (fst (simulate scenario_env break_armed_quiet ["q"%string]))) = [] /\
  m_cycles_total (cpu (fst (simulate scenario_env break_armed_quiet ["q"%string])))
    = m_cycles_total (cpu break_armed_quiet) /\
  ~ (m_cycles_total (cpu break_armed_quiet)
     < m_cycles_total
         (cpu (fst (simulate scenario_env break_armed_quiet ["q"%string])))).
Proof.
  split; [reflexivity|]. split; [reflexivity|]. split; [reflexivity|].
  split; [reflexivity|]. split; [reflexivity|].
  vm_compute. discriminate.
Qed.

(** C8, amended.  With the 64-bit clock written out, for a step that
    services no interrupt:
    - halted with no enabled interrupt pending, the step adds
      exactly 4;
    - awake, the step adds the T-states [t] that [execute] returns,
      for [0 <= t < 2^31], to the clock that [execute] left, so the
      clock strictly increases when [t] is positive, the hooks and the
      handler did not lower the clock, and it does not wrap;
    - awake, a step whose break ends with quit adds nothing. *)
Theorem simulate_cycles
    (env : environment) (m : machine) (input : list string) :
  0 <= m_cycles_total (cpu m) ->
  let after := fst (simulate env m input) in
  let fetched := upd_cpu (set_cur_opcode (readop8 m 0)) m in
  (is_halting m = true -> interrupt_mask (io m) = 0 ->
     m_cycles_total (cpu after) = (m_cycles_total (cpu m) + 4) mod 2 ^ 64 /\
     (m_cycles_total (cpu m) + 4 < 2 ^ 64 ->
        m_cycles_total (cpu after) = m_cycles_total (cpu m) + 4)) /\
  (is_halting m = false ->
     forall m2 t input',
       execute env fetched (readop8 m 0) input = (m2, t, input') ->
       0 <= t < 2 ^ 31 ->
       ime (ime_countdown m2) = false \/ interrupt_mask (io m2) = 0 ->
       m_cycles_total (cpu after) = (m_cycles_total (cpu m2) + t) mod 2 ^ 64 /\
       (m_cycles_total (cpu m) <= m_cycles_total (cpu m2) -> 0 < t ->
        m_cycles_total (cpu m2) + t < 2 ^ 64 ->
          m_cycles_total (cpu m) < m_cycles_total (cpu after))) /\
  (is_halting m = false ->
     forall m1 input',
       execute_break_checks env fetched (readop8 m 0) input = (m1, input', true) ->
       ime (ime_countdown m1) = false \/ interrupt_mask (io m1) = 0 ->
       m_cycles_total (cpu after) = m_cycles_total (cpu m1) mod 2 ^ 64).
Proof.
  intros Hpos after fetched. subst after. split; [|split].
  - intros Hh Hmask. rewrite simulate_halted by exact Hh. cbn [fst].
    rewrite handle_interrupts_idle_cycles by (right; exact Hmask). cbn.
    split; [reflexivity|]. intros Hlt. apply Z.mod_small. lia.
  - intros Hh m2 t input' He Ht Hidle. rewrite simulate_awake by exact Hh.
    fold fetched. rewrite He. cbn [fst].
    rewrite handle_interrupts_idle_cycles
      by (apply no_service_incr_cycles; exact Hidle).
    cbn. split; [reflexivity|]. intros Hle Hpos' Hlt.
    rewrite Z.mod_small by lia. lia.
  - intros Hh m1 input' Hc Hidle. rewrite simulate_awake by exact Hh.
    fold fetched. unfold execute. rewrite Hc. cbn [fst].
    rewrite handle_interrupts_idle_cycles
      by (apply no_service_incr_cycles; exact Hidle).
    cbn. now rewrite Z.add_0_r.
Qed.

Lemma simulate_cycles_witness :
  (0 <= m_cycles_total (cpu halted_quiet) /\
   is_halting halted_quiet = true /\ interrupt_mask (io halted_quiet) = 0 /\
   m_cycles_total (cpu (fst (simulate scenario_env halted_quiet []))) = 1004) /\
  (0 <= m_cycles_total (cpu (power_on [0x00] quiet_io)) /\
   is_halting (power_on [0x00] quiet_io) = false /\
   execute scenario_env
     (upd_cpu (set_cur_opcode (readop8 (power_on [0x00] quiet_io) 0))
              (power_on [0x00] quiet_io))
     (readop8 (power_on [0x00] quiet_io) 0) []
   = (increment_pc (power_on [0x00] quiet_io), 4, []) /\
   0 <= 4 < 2 ^ 31 /\
   (ime (ime_countdown (increment_pc (power_on [0x00] quiet_io))) = false \/
    interrupt_mask (io (increment_pc (power_on [0x00] quiet_io))) = 0) /\
   m_cycles_total (cpu (power_on [0x00] quiet_io))
   < m_cycles_total (cpu (fst (simulate scenario_env (power_on [0x00] quiet_io) [])))) /\
  (is_halting break_armed_quiet = false /\
   execute_break_checks scenario_env
     (upd_cpu (set_cur_opcode (readop8 break_armed_quiet 0)) break_armed_quiet)
     (readop8 break_armed_quiet 0) ["q"%string]
   = (stop (upd_cpu (set_break false) break_armed_quiet), [], true) /\
   m_cycles_total
     (cpu (fst (simulate scenario_env break_armed_quiet ["q"%string])))
   = 1000 mod 2 ^ 64).
Proof.
  split; [|split].
  - assert (H0 : 0 <= m_cycles_total (cpu halted_quiet)) by (cbn; lia).
    destruct (simulate_cycles scenario_env halted_quiet [] H0) as (Hh & _).
    destruct (Hh eq_refl eq_refl) as (_ & Hexact).
    split; [exact H0|]. split; [reflexivity|]. split; [reflexivity|].
    rewrite Hexact; [reflexivity | cbn; lia].
  - assert (H0 : 0 <= m_cycles_total (cpu (power_on [0x00] quiet_io)))
      by (cbn; lia).
    assert (Ht : 0 <= 4 < 2 ^ 31) by lia.
    assert (Hidle : ime (ime_countdown (increment_pc (power_on [0x00] quiet_io)))
                    = false \/
                    interrupt_mask (io (increment_pc (power_on [0x00] quiet_io))) = 0)
      by (left; reflexivity).
    destruct (simulate_cycles scenario_env (power_on [0x00] quiet_io) [] H0)
      as (_ & Hr & _).
    split; [exact H0|]. split; [reflexivity|]. split; [reflexivity|].
    split; [exact Ht|]. split; [exact Hidle|].
    refine (proj2 (Hr eq_refl
                     (increment_pc (power_on [0x00] quiet_io)) 4 [] eq_refl
                     Ht Hidle)
                  _ _ _); cbn; lia.
  - assert (H0 : 0 <= m_cycles_total (cpu break_armed_quiet)) by (cbn; lia).
    destruct (simulate_cycles scenario_env break_armed_quiet ["q"%string] H0)
      as (_ & _ & Hq).
    split; [reflexivity|]. split; [reflexivity|].
    exact (Hq eq_refl (stop (upd_cpu (set_break false) break_armed_quiet)) []
              eq_refl (or_introl eq_refl)).
Defined.

(** * Breakpoints *)

(** [break_time] keeps the registers and the breakpoint table. *)
Lemma break_time_frame (m m1 : machine) (fire : bool) :
  break_time m = (fire, m1) ->
  registers (cpu m1) = registers (cpu m) /\
  m_breakpoints (cpu m1) = m_breakpoints (cpu m).
Proof.
  unfold break_time.
  destruct (m_break (cpu m)); [intros [= _ <-]; split; reflexivity|].
  destruct (negb (m_break_steps_cnt (cpu m) =? 0));
    [|intros [= _ <-]; split; reflexivity].
  cbn. destruct (m_break_steps (cpu m) - 1 <=? 0);
    intros [= _ <-]; split; reflexivity.
Qed.

Lemma lookup_some_nonempty (bps : gmap Z breakpoint_t) (k : Z) (bp : breakpoint_t) :
  bps !! k = Some bp -> bool_decide (bps = ∅) = false.
Proof.
  intros H. apply bool_decide_eq_false. intros ->.
  rewrite lookup_empty in H. discriminate H.
Qed.

(** C9 as stated fails: after a step from a PC whose breakpoint asks
    for a step period of 5 and verbose mode (with a callback that does
    nothing), the period is still 0 and verbose mode still off. *)
Lemma breakpoint_settings_not_adopted :
  m_breakpoints (cpu at_breakpoint) !! pc (registers (cpu at_breakpoint))
    = Some {| callback := 0%nat; bp_break_on_steps := 5; verbose_instr := true |} /\
  m_break_steps_cnt (cpu (fst (simulate scenario_env at_breakpoint []))) <> 5 /\
  verbose_instructions (fst (simulate scenario_env at_breakpoint [])) <> true.
Proof.
  split; [vm_compute; reflexivity|]. split; vm_compute; discriminate.
Qed.

(** C9, amended.  When a step begins at a PC that has a registered
    breakpoint and neither the one-shot nor the periodic break fires, the
    breakpoint's callback is invoked with the CPU and the opcode fetched
    at that PC, and the state it returns goes on to the decoder as it
    is: the step period and the verbose flag are those the callback
    leaves, the breakpoint's own [break_on_steps] and [verbose_instr]
    are not looked at. *)
Theorem breakpoint_callback_invoked
    (env : environment) (m m1 : machine) (input : list string)
    (bp : breakpoint_t) :
  is_halting m = false ->
  m_breakpoints (cpu m) !! pc (registers (cpu m)) = Some bp ->
  break_time (upd_cpu (set_cur_opcode (readop8 m 0)) m) = (false, m1) ->
  let op := readop8 m 0 in
  let called := run_callback env (callback bp) m1 op input in
  let out := handler env (decode op) (increment_pc (fst called)) op in
  execute_break_checks env (upd_cpu (set_cur_opcode op) m) op input
    = (fst called, snd called, false) /\
  simulate env m input
    = (handle_interrupts (incr_cycles (snd out) (log_flags (fst out))),
       snd called) /\
  m_break_steps_cnt (cpu (increment_pc (fst called)))
    = m_break_steps_cnt (cpu (fst called)) /\
  verbose_instructions (increment_pc (fst called))
    = verbose_instructions (fst called).
Proof.
  intros Hh Hbp Hbt op called out. subst op.
  destruct (break_time_frame _ _ _ Hbt) as (Hr & Hb). cbn in Hr, Hb.
  assert (Hc : execute_break_checks env
                 (upd_cpu (set_cur_opcode (readop8 m 0)) m) (readop8 m 0) input
               = (fst called, snd called, false)).
  { unfold execute_break_checks. rewrite Hbt. cbn iota.
    rewrite Hb, Hr, (lookup_some_nonempty _ _ _ Hbp), Hbp. cbn.
    subst called. destruct (run_callback env (callback bp) m1 (readop8 m 0) input).
    reflexivity. }
  split; [exact Hc|]. split; [|split; reflexivity].
  rewrite simulate_awake by exact Hh.
  rewrite (execute_runs_handler env _ _ _ _ _ Hc). reflexivity.
Qed.

Lemma breakpoint_callback_invoked_witness :
  is_halting at_breakpoint = false /\
  m_breakpoints (cpu at_breakpoint) !! pc (registers (cpu at_breakpoint))
    = Some {| callback := 0%nat; bp_break_on_steps := 5; verbose_instr := true |} /\
  break_time (upd_cpu (set_cur_opcode (readop8 at_breakpoint 0)) at_breakpoint)
    = (false, at_breakpoint) /\
  execute_break_checks scenario_env
    (upd_cpu (set_cur_opcode (readop8 at_breakpoint 0)) at_breakpoint)
    (readop8 at_breakpoint 0) []
  = (at_breakpoint, [], false).
Proof.
  assert (Hbp : m_breakpoints (cpu at_breakpoint) !! pc (registers (cpu at_breakpoint))
    = Some {| callback := 0%nat; bp_break_on_steps := 5; verbose_instr := true |})
    by (vm_compute; reflexivity).
  split; [reflexivity|]. split; [exact Hbp|]. split; [reflexivity|].
  exact (proj1 (breakpoint_callback_invoked scenario_env at_breakpoint
                  at_breakpoint [] _ eq_refl Hbp eq_refl)).
Defined.

(** X22.  In the variant the hooks do take over the breakpoint's settings:
    after the callback (skipped when empty) the step period, its
    counter and the verbose flag are those of the breakpoint. *)
Lemma legacy_breakpoint_settings_adopted
    (env : Legacy.environment) (m m1 : Legacy.machine) (opcode : Z)
    (input : string) (bp : Legacy.breakpoint_t) :
  Legacy.break_time m = (false, m1) ->
  Legacy.m_breakpoints (Legacy.cpu m1)
    !! pc (Legacy.registers (Legacy.cpu m1)) = Some bp ->
  let called := match Legacy.callback bp with
                | Some cb => Legacy.run_callback env cb m1 opcode
                | None => m1
                end in
  let after := fst (Legacy.execute_break_checks env m opcode input) in
  after = Legacy.set_verbose_instructions (Legacy.verbose_instr bp)
            (Legacy.set_break_on_steps (Legacy.break_on_steps bp) called) /\
  Legacy.m_break_steps_cnt (Legacy.cpu after) = Legacy.break_on_steps bp /\
  Legacy.m_break_steps (Legacy.cpu after) = Legacy.break_on_steps bp /\
  Legacy.verbose_instructions after = Legacy.verbose_instr bp.
Proof.
  intros Hbt Hbp called after.
  assert (E : after = Legacy.set_verbose_instructions (Legacy.verbose_instr bp)
            (Legacy.set_break_on_steps (Legacy.break_on_steps bp) called)).
  { subst after. unfold Legacy.execute_break_checks. rewrite Hbt. cbn iota.
    assert (Hne : bool_decide (Legacy.m_breakpoints (Legacy.cpu m1) = ∅) = false).
    { apply bool_decide_eq_false. intros Hempty. rewrite Hempty in Hbp.
      rewrite lookup_empty in Hbp. discriminate Hbp. }
    rewrite Hne, Hbp. reflexivity. }
  split; [exact E|]. rewrite E. repeat split.
Qed.

(** * The delayed IME toggle across steps *)

(** A step with the debug harness idle and the CPU awake. *)
Lemma simulate_idle (env : environment) (m : machine) (input : list string) :
  debug_idle m -> is_halting m = false ->
  let fetched := upd_cpu (set_cur_opcode (readop8 m 0)) m in
  let out := handler env (decode (readop8 m 0)) (increment_pc fetched)
                     (readop8 m 0) in
  simulate env m input
  = (handle_interrupts (incr_cycles (snd out) (log_flags (fst out))), input).
Proof.
  intros Hidle Hh fetched out.
  rewrite simulate_awake by exact Hh.
  assert (Hf : debug_idle fetched) by exact Hidle.
  rewrite (execute_runs_handler env fetched fetched _ input input
             (execute_break_checks_idle env fetched _ input Hf)).
  reflexivity.
Qed.

Lemma simulate_n_S (env : environment) (n : nat) (m : machine)
    (input : list string) :
  simulate_n env (S n) m input
  = simulate_n env n (fst (simulate env m input)) (snd (simulate env m input)).
Proof. cbn. destruct (simulate env m input). reflexivity. Qed.

Lemma set_intr_pending_same (m : machine) :
  upd_cpu (set_intr_pending (m_intr_pending (cpu m))) m = m.
Proof. destruct m as [c mem o v]. destruct c. reflexivity. Qed.

(** The opcode at the next PC is the byte after the current one. *)
Lemma readop8_next (m s : machine) (k : Z) :
  memory s = memory m ->
  pc (registers (cpu s)) = (pc (registers (cpu m)) + k) mod 0x10000 ->
  readop8 s 0 = readop8 m k.
Proof.
  intros Hm Hpc. unfold readop8, read8. rewrite Hm, Hpc, Z.add_0_r.
  rewrite Z.mod_mod by lia. reflexivity.
Qed.

(** The verbose log and the clock leave the context, IME and its
    countdown alone. *)
Lemma log_flags_frame (m : machine) :
  context_of (log_flags m) = context_of m /\
  ime (log_flags m) = ime m /\
  m_intr_pending (cpu (log_flags m)) = m_intr_pending (cpu m).
Proof.
  unfold log_flags.
  destruct (verbose_instructions m); [|repeat split].
  destruct (negb (m_last_flags (cpu m) =? flags (registers (cpu m))));
    repeat split.
Qed.

Lemma incr_cycles_frame (n : Z) (m : machine) :
  context_of (incr_cycles n m) = context_of m /\
  ime (incr_cycles n m) = ime m /\
  m_intr_pending (cpu (incr_cycles n m)) = m_intr_pending (cpu m).
Proof. repeat split. Qed.

Lemma ime_countdown_context (m : machine) :
  context_of (ime_countdown m) = context_of m.
Proof.
  unfold ime_countdown.
  destruct (0 <? m_intr_pending (cpu m)); [|destruct (m_intr_pending (cpu m) <? 0)];
    cbn; try reflexivity;
    match goal with |- context [if ?b then _ else _] => destruct b end;
    reflexivity.
Qed.

Lemma haltbug_countdown_context (m : machine) :
  context_of (haltbug_countdown m) = context_of m.
Proof.
  unfold haltbug_countdown.
  destruct (negb (m_asleep (cpu m))), (negb (m_haltbug (cpu m) =? 0));
    reflexivity.
Qed.

(** IME after the delayed toggle: it changes when the countdown reaches
    zero, from +1 to on, from -1 to off. *)
Lemma ime_countdown_ime (m : machine) :
  ime (ime_countdown m) =
    if m_intr_pending (cpu m) =? 1 then true
    else if m_intr_pending (cpu m) =? -1 then false
    else ime m.
Proof.
  unfold ime_countdown.
  destruct (Z.ltb_spec 0 (m_intr_pending (cpu m))) as [Hp|Hp].
  - cbn. destruct (Z.eqb_spec (m_intr_pending (cpu m) - 1) 0) as [E|E];
      destruct (Z.eqb_spec (m_intr_pending (cpu m)) 1) as [E1|E1];
      try lia; try reflexivity.
    destruct (Z.eqb_spec (m_intr_pending (cpu m)) (-1)); [lia | reflexivity].
  - destruct (Z.eqb_spec (m_intr_pending (cpu m)) 1) as [E1|E1]; [lia|].
    destruct (Z.ltb_spec (m_intr_pending (cpu m)) 0) as [Hn|Hn].
    + cbn. destruct (Z.eqb_spec (m_intr_pending (cpu m) + 1) 0) as [E|E];
        destruct (Z.eqb_spec (m_intr_pending (cpu m)) (-1)) as [E2|E2];
        try lia; reflexivity.
    + destruct (Z.eqb_spec (m_intr_pending (cpu m)) (-1)); [lia | reflexivity].
Qed.

(** One step whose handler does nothing but leave the countdown at [q]
    (+2 after EI, -2 after DI, -1 in the step after DI), with no
    interrupt to service: the countdown moves one step, IME changes
    only when it reaches zero. *)
Lemma step_leaving_countdown
    (env : environment) (s : machine) (input : list string) (q : Z) :
  debug_idle s -> m_asleep (cpu s) = false ->
  fst (handler env (decode (readop8 s 0))
         (increment_pc (upd_cpu (set_cur_opcode (readop8 s 0)) s))
         (readop8 s 0))
  = upd_cpu (set_intr_pending q)
      (increment_pc (upd_cpu (set_cur_opcode (readop8 s 0)) s)) ->
  q = 2 \/ q = -2 \/ q = -1 ->
  (q <> -1 -> ime s = true -> interrupt_mask (io s) = 0) ->
  let s' := fst (simulate env s input) in
  snd (simulate env s input) = input /\
  memory s' = memory s /\ io s' = io s /\ debug_idle s' /\
  m_asleep (cpu s') = false /\
  pc (registers (cpu s')) = (pc (registers (cpu s)) + 1) mod 0x10000 /\
  m_intr_pending (cpu s') = q - Z.sgn q /\
  ime s' = (if q =? -1 then false else ime s).
Proof.
  intros Hidle Haw Hout Hq Hquiet s'. subst s'.
  rewrite (simulate_idle env s input Hidle Haw). cbn [fst snd].
  rewrite Hout. clear Hout.
  set (t := snd (handler env _ _ _)). clearbody t.
  set (x := upd_cpu (set_intr_pending q)
              (increment_pc (upd_cpu (set_cur_opcode (readop8 s 0)) s))).
  assert (Hx : context_of x
               = (set_pc ((pc (registers (cpu s)) + 1) mod 0x10000)
                         (registers (cpu s)),
                  memory s, io s, m_asleep (cpu s),
                  (m_break (cpu s), m_break_steps_cnt (cpu s),
                   m_breakpoints (cpu s)))) by reflexivity.
  assert (Hxi : ime x = ime s) by reflexivity.
  assert (Hxp : m_intr_pending (cpu x) = q) by reflexivity.
  clearbody x.
  destruct (log_flags_frame x) as (Hlc & Hli & Hlp).
  destruct (incr_cycles_frame t (log_flags x)) as (Hcc & Hci & Hcp).
  set (y := incr_cycles t (log_flags x)) in *. clearbody y.
  assert (Hy : context_of y = context_of x) by congruence.
  assert (Hyi : ime y = ime s) by congruence.
  assert (Hyp : m_intr_pending (cpu y) = q) by congruence.
  clear Hlc Hli Hlp Hcc Hci Hcp.
  assert (Hyio : io y = io s).
  { unfold context_of in Hy, Hx. congruence. }
  assert (Hafter : ime (ime_countdown y) = (if q =? -1 then false else ime s)).
  { rewrite ime_countdown_ime, Hyp, Hyi.
    destruct Hq as [-> | [-> | ->]]; reflexivity. }
  assert (Hidle' : ime (ime_countdown y) = false \/ interrupt_mask (io y) = 0).
  { rewrite Hafter, Hyio.
    destruct (Z.eqb_spec q (-1)) as [E|E]; [now left|].
    destruct (ime s) eqn:Hi; [right; now apply Hquiet | now left]. }
  rewrite (handle_interrupts_idle y Hidle').
  pose proof (haltbug_countdown_context (ime_countdown y)) as Hh.
  pose proof (ime_countdown_context y) as Hc.
  destruct (haltbug_countdown_frame (ime_countdown y))
    as (_ & _ & _ & Hhi & _ & Hhp & _).
  set (z := haltbug_countdown (ime_countdown y)) in *. clearbody z.
  assert (Hz : context_of z
               = (set_pc ((pc (registers (cpu s)) + 1) mod 0x10000)
                         (registers (cpu s)),
                  memory s, io s, m_asleep (cpu s),
                  (m_break (cpu s), m_break_steps_cnt (cpu s),
                   m_breakpoints (cpu s)))) by congruence.
  unfold context_of in Hz. injection Hz as Hzr Hzm Hzio Hza Hzb Hzc Hzbp.
  destruct Hidle as (Hb & Hcnt & Hbp). unfold debug_idle.
  split; [reflexivity|]. split; [exact Hzm|]. split; [exact Hzio|].
  split; [split; [|split]; congruence|].
  split; [congruence|]. split; [now rewrite Hzr|].
  split; [rewrite Hhp, ime_countdown_pending, Hyp; reflexivity|].
  rewrite Hhi. exact Hafter.
Qed.

(** C3 as stated fails: with IME on before EI, the step after DI turns
    IME off (at the moment DI retires it is still on). *)
Lemma ei_di_turns_ime_off :
  ime ei_di_nop_ime_on = true /\
  ime (fst (simulate_n scenario_env 2 ei_di_nop_ime_on [])) = true /\
  ime (fst (simulate_n scenario_env 3 ei_di_nop_ime_on []))
    <> ime ei_di_nop_ime_on.
Proof.
  split; [reflexivity|]. split; [vm_compute; reflexivity|].
  vm_compute. discriminate.
Qed.

(** C3, amended.  EI then DI in adjacent instructions, with no interrupt
    serviced in between, leaves IME at the moment DI retires as it was
    before EI, for every initial value of IME: the pending disable has
    replaced the pending enable (the countdown stands at -1).  The
    toggles do not cancel each other: when the instruction after DI is
    a NOP, IME is off once that NOP retires, whatever it was before
    EI.  (Nothing is said of a next instruction that arms the toggle
    again, such as another EI.) *)
Theorem ei_then_di
    (env : environment) (m : machine) (input : list string) :
  ei_di_nop_handlers env ->
  debug_idle m -> m_asleep (cpu m) = false ->
  readop8 m 0 = 0xfb -> readop8 m 1 = 0xf3 ->
  (ime m = true -> interrupt_mask (io m) = 0) ->
  let after_di := fst (simulate_n env 2 m input) in
  ime after_di = ime m /\
  m_intr_pending (cpu after_di) = -1 /\
  (readop8 m 2 = 0x00 -> ime (fst (simulate_n env 3 m input)) = false).
Proof.
  intros (Hei & Hdi & Hnop) Hidle Haw Hop0 Hop1 Hquiet after_di.
  (* EI *)
  destruct (step_leaving_countdown env m input 2 Hidle Haw)
    as (Hin1 & Hmem1 & Hio1 & Hidle1 & Haw1 & Hpc1 & Hp1 & Hime1).
  { rewrite Hop0. apply Hei. }
  { now left. }
  { intros _. exact Hquiet. }
  cbn in Hp1, Hime1.
  set (s1 := fst (simulate env m input)) in *.
  assert (Hs1op : readop8 s1 0 = 0xf3).
  { rewrite (readop8_next m s1 1 Hmem1 Hpc1). exact Hop1. }
  (* DI *)
  destruct (step_leaving_countdown env s1 input (-2) Hidle1 Haw1)
    as (Hin2 & Hmem2 & Hio2 & Hidle2 & Haw2 & Hpc2 & Hp2 & Hime2).
  { rewrite Hs1op. apply Hdi. }
  { right. now left. }
  { intros _ Hi. rewrite Hio1. apply Hquiet. now rewrite <- Hime1. }
  cbn in Hp2, Hime2.
  set (s2 := fst (simulate env s1 input)) in *.
  assert (E2 : simulate_n env 2 m input = (s2, input)).
  { rewrite simulate_n_S. fold s1. rewrite Hin1. rewrite simulate_n_S.
    fold s2. rewrite Hin2. reflexivity. }
  assert (E3 : simulate_n env 3 m input = simulate env s2 input).
  { rewrite simulate_n_S. fold s1. rewrite Hin1. rewrite simulate_n_S.
    fold s2. rewrite Hin2. cbn. destruct (simulate env s2 input). reflexivity. }
  subst after_di. rewrite E2, E3. cbn [fst].
  split; [congruence|]. split; [exact Hp2|].
  (* the instruction after DI *)
  intros Hop2.
  assert (Hs2op : readop8 s2 0 = 0x00).
  { transitivity (readop8 m 2); [|exact Hop2].
    apply readop8_next; [congruence|].
    rewrite Hpc2, Hpc1. rewrite Zplus_mod_idemp_l.
    f_equal. lia. }
  destruct (step_leaving_countdown env s2 input (-1) Hidle2 Haw2)
    as (_ & _ & _ & _ & _ & _ & _ & Hime3).
  { rewrite Hs2op. change (decode 0x00) with instr_NOP. rewrite Hnop.
    rewrite <- Hp2 at 1.
    assert (Hpend : m_intr_pending (cpu s2)
                    = m_intr_pending
                        (cpu (increment_pc (upd_cpu (set_cur_opcode 0x00) s2))))
      by reflexivity.
    rewrite Hpend. symmetry. apply set_intr_pending_same. }
  { right. now right. }
  { intros Hne. contradiction. }
  exact Hime3.
Qed.

Lemma ei_then_di_witness :
  ei_di_nop_handlers scenario_env /\
  debug_idle ei_di_nop_ime_on /\ m_asleep (cpu ei_di_nop_ime_on) = false /\
  readop8 ei_di_nop_ime_on 0 = 0xfb /\ readop8 ei_di_nop_ime_on 1 = 0xf3 /\
  (ime ei_di_nop_ime_on = true -> interrupt_mask (io ei_di_nop_ime_on) = 0) /\
  ime (fst (simulate_n scenario_env 2 ei_di_nop_ime_on [])) = ime ei_di_nop_ime_on /\
  m_intr_pending (cpu (fst (simulate_n scenario_env 2 ei_di_nop_ime_on []))) = -1 /\
  (readop8 ei_di_nop_ime_on 2 = 0x00 ->
   ime (fst (simulate_n scenario_env 3 ei_di_nop_ime_on [])) = false).
Proof.
  assert (Hh : ei_di_nop_handlers scenario_env).
  { split; [|split]; intros m; reflexivity. }
  assert (Hidle : debug_idle ei_di_nop_ime_on).
  { split; [|split]; reflexivity. }
  assert (Hq : ime ei_di_nop_ime_on = true ->
               interrupt_mask (io ei_di_nop_ime_on) = 0).
  { intros _. reflexivity. }
  split; [exact Hh|]. split; [exact Hidle|]. split; [reflexivity|].
  split; [reflexivity|]. split; [reflexivity|]. split; [exact Hq|].
  exact (ei_then_di scenario_env ei_di_nop_ime_on [] Hh Hidle
           eq_refl eq_refl eq_refl Hq).
Defined.

(** X21.  In the variant, with its two countdowns, the enable that EI armed
    does land when DI retires: IME is on at that moment whatever it was
    before, and the disable lands one step later. *)
Lemma legacy_ei_then_di (m : Legacy.machine) :
  Legacy.m_intr_disable_pending (Legacy.cpu m) = 0 ->
  let after_ei := Legacy.ime_countdown (Legacy.enable_interrupts m) in
  let after_di := Legacy.ime_countdown (Legacy.disable_interrupts after_ei) in
  Legacy.ime after_ei = Legacy.ime m /\
  Legacy.ime after_di = true /\
  Legacy.ime (Legacy.ime_countdown after_di) = false.
Proof.
  intros Hd. destruct m as [c mem o v]. destruct c. cbn in Hd. subst.
  lazy. repeat split.
Qed.

(** * A step over an unused opcode *)

(** X23.  For the six opcodes that reach the no-op group, and a handler that
    does nothing in 4 T-states, a step with the debug harness idle, no
    IME toggle pending and no interrupt to service ends with PC one
    further and four more T-states on the clock. *)
Lemma simulate_unused_opcode
    (env : environment) (m : machine) (input : list string) :
  (forall x op, handler env instr_UNUSED_OPS x op = (x, 4)) ->
  debug_idle m -> m_asleep (cpu m) = false ->
  In (readop8 m 0) [0xdb; 0xe4; 0xeb; 0xec; 0xf4; 0xfc] ->
  m_intr_pending (cpu m) = 0 ->
  ime m = false \/ interrupt_mask (io m) = 0 ->
  0 <= m_cycles_total (cpu m) -> m_cycles_total (cpu m) + 4 < 2 ^ 64 ->
  let after := fst (simulate env m input) in
  pc (registers (cpu after)) = (pc (registers (cpu m)) + 1) mod 0x10000 /\
  m_cycles_total (cpu after) = m_cycles_total (cpu m) + 4.
Proof.
  intros Hnoop Hidle Haw Hop Hp Hquiet H0 Hlt after. subst after.
  rewrite (simulate_idle env m input Hidle Haw). cbn [fst].
  assert (Hd : decode (readop8 m 0) = instr_UNUSED_OPS).
  { simpl in Hop.
    destruct Hop as [<-|[<-|[<-|[<-|[<-|[<-|[]]]]]]]; reflexivity. }
  rewrite Hd, Hnoop. cbn [fst snd].
  rewrite handle_interrupts_idle.
  - destruct (haltbug_countdown_frame
                (ime_countdown
                   (incr_cycles 4
                      (log_flags
                         (increment_pc (upd_cpu (set_cur_opcode (readop8 m 0)) m))))))
      as (Hr & _ & _ & _ & _ & _ & Hc & _).
    rewrite Hr, Hc.
    destruct (ime_countdown_frame
                (incr_cycles 4
                   (log_flags
                      (increment_pc (upd_cpu (set_cur_opcode (readop8 m 0)) m)))))
      as (Hr' & _ & _ & _ & _ & Hc' & _).
    rewrite Hr', Hc'. unfold log_flags.
    repeat match goal with |- context [if ?b then _ else _] => destruct b end;
      cbn; (split; [reflexivity | apply Z.mod_small; lia]).
  - unfold log_flags.
    repeat match goal with |- context [if ?b then _ else _] => destruct b end;
      unfold ime_countdown, ime in *; cbn; rewrite Hp; cbn; exact Hquiet.
Qed.

(** * The variant on concrete machines *)

(** A breakpoint of the variant at 0x0100, without callback, asking for
    a step period of 5 and verbose mode. *)
Example legacy_breakpoint_at_power_on :
  let m := Legacy.upd_cpu
             (fun c =>
                {| Legacy.registers := Legacy.registers c;
                   Legacy.m_cycles_total := Legacy.m_cycles_total c;
                   Legacy.m_cur_opcode := Legacy.m_cur_opcode c;
                   Legacy.m_running := Legacy.m_running c;
                   Legacy.m_halting := Legacy.m_halting c;
                   Legacy.m_intr_master_enable := Legacy.m_intr_master_enable c;
                   Legacy.m_intr_enable_pending := Legacy.m_intr_enable_pending c;
                   Legacy.m_intr_disable_pending := Legacy.m_intr_disable_pending c;
                   Legacy.m_last_flags := Legacy.m_last_flags c;
                   Legacy.m_break := Legacy.m_break c;
                   Legacy.m_break_steps_cnt := Legacy.m_break_steps_cnt c;
                   Legacy.m_break_steps := Legacy.m_break_steps c;
                   Legacy.m_breakpoints :=
                     {[ 0x0100 := {| Legacy.callback := None;
                                     Legacy.break_on_steps := 5;
                                     Legacy.verbose_instr := true |} ]} |})
             legacy_power_on in
  let env := {| Legacy.handler := fun _ x _ => (x, 4);
                Legacy.run_callback := fun _ x _ => x |} in
  let after := fst (fst (Legacy.execute env m 0x00 EmptyString)) in
  Legacy.m_break_steps_cnt (Legacy.cpu after) = 5 /\
  Legacy.verbose_instructions after = true /\
  pc (Legacy.registers (Legacy.cpu after)) = 0x0101.
Proof. vm_compute. repeat split. Qed.

Example legacy_reset_pc :
  pc (Legacy.registers (Legacy.cpu (Legacy.reset legacy_power_on))) = 0x0100.
Proof. reflexivity. Qed.

(** * Further properties of the decoder *)

(** A boolean property checked on the 256 opcodes holds of every
    opcode. *)
Lemma byte_forall (p : Z -> bool) :
  forallb p all_opcodes = true ->
  forall op, 0 <= op < 256 -> p op = true.
Proof.
  intros H op Hop.
  eapply forallb_forall in H; [exact H|].
  now apply all_opcodes_complete.
Qed.

(** X1.  The decoder has no rule for exactly five opcodes: 0xCC, 0xD3,
    0xD4, 0xDC and 0xE3 reach [instr_MISSING], every other opcode
    reaches a group. *)
Theorem decode_missing_iff (op : Z) :
  0 <= op < 256 ->
  (decode op = instr_MISSING <-> In op [0xcc; 0xd3; 0xd4; 0xdc; 0xe3]).
Proof.
  intros Hop. rewrite (opcodes_of_spec instr_MISSING op Hop).
  rewrite decode_MISSING_opcodes. reflexivity.
Qed.

Lemma decode_missing_iff_witness :
  0 <= 0xd3 < 256 /\
  (decode 0xd3 = instr_MISSING <-> In 0xd3 [0xcc; 0xd3; 0xd4; 0xdc; 0xe3]).
Proof.
  split; [lia|]. apply (decode_missing_iff 0xd3). lia.
Defined.

(** X2.  In the block 0x40-0x7F every opcode is a register load except
    0x76, and 0x76 is the only opcode that decodes to HALT. *)
Theorem decode_halt_iff (op : Z) :
  0 <= op < 256 ->
  (decode op = instr_HALT <-> op = 0x76) /\
  (decode op = instr_LD_D_D <-> 0x40 <= op < 0x80 /\ op <> 0x76).
Proof.
  intros Hop.
  pose proof (byte_forall
    (fun o => Bool.eqb (instruction_eqb (decode o) instr_HALT) (o =? 0x76)
              && Bool.eqb (instruction_eqb (decode o) instr_LD_D_D)
                          ((0x40 <=? o) && (o <? 0x80) && negb (o =? 0x76)))
    eq_refl op Hop) as H.
  apply andb_true_iff in H. destruct H as [H1 H2].
  apply Bool.eqb_prop in H1. apply Bool.eqb_prop in H2.
  split.
  - rewrite <- instruction_eqb_eq, H1. apply Z.eqb_eq.
  - rewrite <- instruction_eqb_eq, H2.
    rewrite !andb_true_iff, negb_true_iff, Z.leb_le, Z.ltb_lt, Z.eqb_neq.
    tauto.
Qed.

Lemma decode_halt_iff_witness :
  0 <= 0x47 < 256 /\
  (decode 0x47 = instr_HALT <-> 0x47 = 0x76) /\
  (decode 0x47 = instr_LD_D_D <-> 0x40 <= 0x47 < 0x80 /\ 0x47 <> 0x76).
Proof.
  split; [lia|]. apply (decode_halt_iff 0x47). lia.
Defined.

(** X3.  The third rule for [instr_LD_xxx_A], on [(opcode & 0xef) ==
    0xea], never fires: the opcodes it tests for, 0xEA and 0xFA, are
    taken by the rule for [instr_LD_N_A_N] above it, and
    [instr_LD_xxx_A] is reached from 0xE0, 0xE2, 0xF0 and 0xF2 only. *)
Theorem decode_ld_xxx_a_dead_rule (op : Z) :
  0 <= op < 256 ->
  (masked op 0xef 0xea = true -> decode op = instr_LD_N_A_N) /\
  (decode op = instr_LD_N_A_N <-> In op [0xea; 0xfa]) /\
  (decode op = instr_LD_xxx_A <-> In op [0xe0; 0xe2; 0xf0; 0xf2]).
Proof.
  intros Hop. split; [|split].
  - intros Hm.
    pose proof (byte_forall
      (fun o => implb (masked o 0xef 0xea)
                      (instruction_eqb (decode o) instr_LD_N_A_N))
      eq_refl op Hop) as H.
    cbv beta in H. rewrite Hm in H. now apply instruction_eqb_eq.
  - rewrite (opcodes_of_spec instr_LD_N_A_N op Hop).
    assert (E : opcodes_of instr_LD_N_A_N = [0xea; 0xfa])
      by (vm_compute; reflexivity).
    rewrite E. reflexivity.
  - rewrite (opcodes_of_spec instr_LD_xxx_A op Hop).
    assert (E : opcodes_of instr_LD_xxx_A = [0xe0; 0xe2; 0xf0; 0xf2])
      by (vm_compute; reflexivity).
    rewrite E. reflexivity.
Qed.

Lemma decode_ld_xxx_a_dead_rule_witness :
  0 <= 0xfa < 256 /\
  masked 0xfa 0xef 0xea = true /\ decode 0xfa = instr_LD_N_A_N.
Proof.
  assert (H : 0 <= 0xfa < 256) by lia.
  split; [exact H|]. split; [reflexivity|].
  exact (proj1 (decode_ld_xxx_a_dead_rule 0xfa H) eq_refl).
Defined.

(** X4.  The two decoders agree on every opcode except DAA (0x27),
    ADD SP,n (0xE8) and the six unused opcodes of the newer table, for
    which the variant has no rule. *)
Theorem legacy_decode_differs (op : Z) :
  0 <= op < 256 ->
  Legacy.decode op =
    if existsb (Z.eqb op) [0x27; 0xe8; 0xdb; 0xe4; 0xeb; 0xec; 0xf4; 0xfc]
    then instr_MISSING else decode op.
Proof.
  intros Hop.
  pose proof (byte_forall
    (fun o => instruction_eqb (Legacy.decode o)
                (if existsb (Z.eqb o) [0x27; 0xe8; 0xdb; 0xe4; 0xeb; 0xec; 0xf4; 0xfc]
                 then instr_MISSING else decode o))
    eq_refl op Hop) as H.
  now apply instruction_eqb_eq.
Qed.

Lemma legacy_decode_differs_witness :
  0 <= 0x27 < 256 /\
  Legacy.decode 0x27 = instr_MISSING /\ decode 0x27 = instr_DAA.
Proof.
  assert (H : 0 <= 0x27 < 256) by lia.
  split; [exact H|]. split; [|reflexivity].
  exact (legacy_decode_differs 0x27 H).
Defined.

(** * Further properties of the interrupt client *)

(** X5.  With IME off once the delayed toggle was applied, or with no
    enabled interrupt pending, [handle_interrupts] services nothing:
    the registers, the memory, the I/O unit and the sleep flag are as
    before, only the two countdowns moved. *)
Theorem handle_interrupts_no_service (m : machine) :
  ime (ime_countdown m) = false \/ interrupt_mask (io m) = 0 ->
  registers (cpu (handle_interrupts m)) = registers (cpu m) /\
  memory (handle_interrupts m) = memory m /\
  io (handle_interrupts m) = io m /\
  m_asleep (cpu (handle_interrupts m)) = m_asleep (cpu m) /\
  ime (handle_interrupts m) = ime (ime_countdown m) /\
  m_intr_pending (cpu (handle_interrupts m))
    = m_intr_pending (cpu m) - Z.sgn (m_intr_pending (cpu m)).
Proof.
  intros H. rewrite (handle_interrupts_idle m H).
  destruct (haltbug_countdown_frame (ime_countdown m))
    as (Hr & Hm & Hio & Hi & Ha & Hp & _).
  destruct (ime_countdown_frame m) as (Hr' & Hm' & Hio' & Ha' & _).
  rewrite Hr, Hm, Hio, Hi, Ha, Hp, Hr', Hm', Hio', Ha', ime_countdown_pending.
  repeat split.
Qed.

Lemma handle_interrupts_no_service_witness :
  (ime (ime_countdown halted_ime_off) = false \/
   interrupt_mask (io halted_ime_off) = 0) /\
  registers (cpu (handle_interrupts halted_ime_off))
    = registers (cpu halted_ime_off) /\
  io (handle_interrupts halted_ime_off) = io halted_ime_off.
Proof.
  assert (H : ime (ime_countdown halted_ime_off) = false \/
              interrupt_mask (io halted_ime_off) = 0) by (left; reflexivity).
  destruct (handle_interrupts_no_service halted_ime_off H)
    as (Hr & _ & Hio & _).
  split; [exact H|]. split; [exact Hr | exact Hio].
Defined.

Lemma handle_interrupts_di_wins_witness :
  m_intr_pending (cpu di_landing) = -1 /\
  ime di_landing = true /\ interrupt_mask (io di_landing) <> 0 /\
  ime (handle_interrupts di_landing) = false /\
  serviced (io (handle_interrupts di_landing)) = serviced (io di_landing).
Proof.
  destruct (handle_interrupts_di_wins di_landing eq_refl) as (Hi & Hs & _).
  split; [reflexivity|]. split; [reflexivity|].
  split; [vm_compute; discriminate|]. split; [exact Hi | exact Hs].
Defined.

(** The countdown after [handle_interrupts]: cleared by a serviced
    interrupt, one step nearer to zero otherwise. *)
Lemma handle_interrupts_pending (m : machine) :
  m_intr_pending (cpu (handle_interrupts m)) = 0 \/
  m_intr_pending (cpu (handle_interrupts m))
    = m_intr_pending (cpu m) - Z.sgn (m_intr_pending (cpu m)).
Proof.
  destruct (ime (ime_countdown m)) eqn:Hi.
  - destruct (Z.eq_dec (interrupt_mask (io m)) 0) as [Hz|Hz].
    + right. rewrite handle_interrupts_idle by (right; exact Hz).
      destruct (haltbug_countdown_frame (ime_countdown m))
        as (_ & _ & _ & _ & _ & Hp & _).
      rewrite Hp. apply ime_countdown_pending.
    + left. destruct (handle_interrupts_services m Hi Hz) as (i & _ & Ht).
      apply Ht.
  - right. rewrite handle_interrupts_idle by (left; exact Hi).
    destruct (haltbug_countdown_frame (ime_countdown m))
      as (_ & _ & _ & _ & _ & Hp & _).
    rewrite Hp. apply ime_countdown_pending.
Qed.

(** X7.  Every call of [handle_interrupts] brings the IME countdown
    strictly nearer to zero, whether or not an interrupt is serviced:
    a toggle armed at +2 or -2 is over after two calls. *)
Theorem handle_interrupts_countdown_shrinks (m : machine) :
  Z.abs (m_intr_pending (cpu (handle_interrupts m)))
    <= Z.max 0 (Z.abs (m_intr_pending (cpu m)) - 1) /\
  (Z.abs (m_intr_pending (cpu m)) <= 2 ->
   m_intr_pending (cpu (handle_interrupts (handle_interrupts m))) = 0).
Proof.
  assert (Hone : forall x : machine,
    Z.abs (m_intr_pending (cpu (handle_interrupts x)))
      <= Z.max 0 (Z.abs (m_intr_pending (cpu x)) - 1)).
  { intros x. destruct (handle_interrupts_pending x) as [H|H]; rewrite H; lia. }
  split; [apply Hone|].
  intros Hb. pose proof (Hone m) as H1.
  pose proof (Hone (handle_interrupts m)) as H2. lia.
Qed.

(** X8.  The HALT-bug counter never grows in [handle_interrupts] and
    never goes below zero: from the 2 that [wait] sets it stays within
    0..2. *)
Theorem handle_interrupts_haltbug_range (m : machine) :
  0 <= m_haltbug (cpu m) ->
  0 <= m_haltbug (cpu (handle_interrupts m)) <= m_haltbug (cpu m) /\
  m_haltbug (cpu (wait m)) = 2.
Proof.
  intros H. split; [|reflexivity].
  rewrite handle_interrupts_haltbug.
  destruct (m_asleep (cpu (handle_interrupts m))); [lia|].
  destruct (Z.eqb_spec (m_haltbug (cpu m)) 0); lia.
Qed.

Lemma handle_interrupts_haltbug_range_witness :
  0 <= m_haltbug (cpu after_halt) /\
  0 <= m_haltbug (cpu (handle_interrupts after_halt))
    <= m_haltbug (cpu after_halt).
Proof.
  assert (H : 0 <= m_haltbug (cpu after_halt)) by (cbn; lia).
  split; [exact H|].
  exact (proj1 (handle_interrupts_haltbug_range after_halt H)).
Defined.

Lemma handle_interrupts_countdown_shrinks_witness :
  Z.abs (m_intr_pending (cpu (enable_interrupts halted_ime_off))) <= 2 /\
  m_intr_pending
    (cpu (handle_interrupts
            (handle_interrupts (enable_interrupts halted_ime_off)))) = 0.
Proof.
  assert (H : Z.abs (m_intr_pending (cpu (enable_interrupts halted_ime_off))) <= 2)
    by (cbn; lia).
  split; [exact H|].
  exact (proj2 (handle_interrupts_countdown_shrinks
                  (enable_interrupts halted_ime_off)) H).
Defined.

(** * Further properties of steps *)

(** Without a service the registers go through [handle_interrupts]
    unchanged. *)
Lemma handle_interrupts_no_service_aux (m : machine) :
  ime (ime_countdown m) = false \/ interrupt_mask (io m) = 0 ->
  registers (cpu (handle_interrupts m)) = registers (cpu m).
Proof.
  intros H. rewrite (handle_interrupts_idle m H).
  destruct (haltbug_countdown_frame (ime_countdown m)) as (Hr & _).
  destruct (ime_countdown_frame m) as (Hr' & _).
  congruence.
Qed.

(** The registers after a step of that kind: only PC moved. *)
Lemma step_leaving_countdown_registers
    (env : environment) (s : machine) (input : list string) (q : Z) :
  debug_idle s -> m_asleep (cpu s) = false ->
  fst (handler env (decode (readop8 s 0))
         (increment_pc (upd_cpu (set_cur_opcode (readop8 s 0)) s))
         (readop8 s 0))
  = upd_cpu (set_intr_pending q)
      (increment_pc (upd_cpu (set_cur_opcode (readop8 s 0)) s)) ->
  q = 2 \/ q = -2 \/ q = -1 ->
  (q <> -1 -> ime s = true -> interrupt_mask (io s) = 0) ->
  registers (cpu (fst (simulate env s input)))
  = set_pc ((pc (registers (cpu s)) + 1) mod 0x10000) (registers (cpu s)).
Proof.
  intros Hidle Haw Hout Hq Hquiet.
  rewrite (simulate_idle env s input Hidle Haw). cbn [fst].
  rewrite Hout. clear Hout.
  set (t := snd (handler env _ _ _)). clearbody t.
  set (x := upd_cpu (set_intr_pending q)
              (increment_pc (upd_cpu (set_cur_opcode (readop8 s 0)) s))).
  assert (Hxr : registers (cpu x)
                = set_pc ((pc (registers (cpu s)) + 1) mod 0x10000)
                         (registers (cpu s))) by reflexivity.
  assert (Hxio : io x = io s) by reflexivity.
  assert (Hxi : ime x = ime s) by reflexivity.
  assert (Hxp : m_intr_pending (cpu x) = q) by reflexivity.
  clearbody x.
  destruct (log_flags_frame x) as (Hlc & Hli & Hlp).
  destruct (incr_cycles_frame t (log_flags x)) as (Hcc & Hci & Hcp).
  set (y := incr_cycles t (log_flags x)) in *. clearbody y.
  assert (Hy : context_of y = context_of x) by congruence.
  unfold context_of in Hy. injection Hy as Hyr _ Hyio _ _ _ _.
  assert (Hidle' : ime (ime_countdown y) = false \/ interrupt_mask (io y) = 0).
  { rewrite ime_countdown_ime, Hcp, Hlp, Hxp, Hci, Hli, Hxi, Hyio, Hxio.
    destruct Hq as [-> | [-> | ->]]; cbn;
      try (now left);
      (destruct (ime s) eqn:Hi; [right; apply Hquiet; [lia | reflexivity]
                                | now left]). }
  pose proof (handle_interrupts_no_service_aux y Hidle') as Hr.
  congruence.
Qed.

(** X10.  EI takes effect after the instruction that follows it.  With
    IME off and an enabled interrupt pending, the step of EI services
    nothing and leaves IME off; the step of the next instruction (a
    NOP) turns IME on and at once services the pending source of highest
    priority, pushing the address after the NOP. *)
Theorem ei_takes_effect_after_next_instruction
    (env : environment) (m : machine) (input : list string) :
  ei_di_nop_handlers env ->
  debug_idle m -> m_asleep (cpu m) = false ->
  readop8 m 0 = 0xfb -> readop8 m 1 = 0x00 ->
  ime m = false -> interrupt_mask (io m) <> 0 ->
  let s1 := fst (simulate env m input) in
  let s2 := fst (simulate_n env 2 m input) in
  (ime s1 = false /\ io s1 = io m /\
   pc (registers (cpu s1)) = (pc (registers (cpu m)) + 1) mod 0x10000) /\
  exists i,
    highest_pending i (interrupt_mask (io m)) /\
    serviced (io s2) = serviced (io m) ++ [i] /\
    ime s2 = false /\
    pc (registers (cpu s2)) = fixed_address i /\
    sp (registers (cpu s2)) = (sp (registers (cpu m)) - 2) mod 0x10000 /\
    read8 (memory s2) (sp (registers (cpu s2)))
      = Z.land ((pc (registers (cpu m)) + 2) mod 0x10000) 0xff /\
    read8 (memory s2) (sp (registers (cpu s2)) + 1)
      = Z.land (Z.shiftr ((pc (registers (cpu m)) + 2) mod 0x10000) 8) 0xff.
Proof.
  intros (Hei & _ & Hnop) Hidle Haw Hop0 Hop1 Hoff Hmask s1 s2.
  (* EI *)
  destruct (step_leaving_countdown env m input 2 Hidle Haw)
    as (Hin1 & Hmem1 & Hio1 & Hidle1 & Haw1 & Hpc1 & Hp1 & Hime1).
  { rewrite Hop0. apply Hei. }
  { now left. }
  { intros _ Hon. congruence. }
  cbn in Hp1, Hime1. fold s1 in Hin1, Hmem1, Hio1, Hidle1, Haw1, Hpc1, Hp1, Hime1.
  split; [split; [rewrite Hime1; exact Hoff | split; [exact Hio1 | exact Hpc1]]|].
  (* the instruction after EI *)
  assert (Hreg1 : registers (cpu s1)
                  = set_pc ((pc (registers (cpu m)) + 1) mod 0x10000)
                           (registers (cpu m))).
  { subst s1. apply (step_leaving_countdown_registers env m input 2 Hidle Haw).
    - rewrite Hop0. apply Hei.
    - now left.
    - intros _ Hon. congruence. }
  assert (Hs1op : readop8 s1 0 = 0x00).
  { rewrite (readop8_next m s1 1 Hmem1 Hpc1). exact Hop1. }
  assert (E2 : s2 = fst (simulate env s1 input)).
  { subst s2. rewrite simulate_n_S. fold s1. rewrite Hin1.
    rewrite simulate_n_S. reflexivity. }
  rewrite E2. rewrite (simulate_idle env s1 input Hidle1 Haw1). cbn [fst].
  rewrite Hs1op. change (decode 0x00) with instr_NOP. rewrite Hnop.
  set (t := snd (handler env _ _ _)). clearbody t.
  set (x := increment_pc (upd_cpu (set_cur_opcode 0x00) s1)).
  assert (Hxr : registers (cpu x)
                = set_pc ((pc (registers (cpu s1)) + 1) mod 0x10000)
                         (registers (cpu s1))) by reflexivity.
  assert (Hxio : io x = io s1) by reflexivity.
  assert (Hxp : m_intr_pending (cpu x) = m_intr_pending (cpu s1)) by reflexivity.
  clearbody x.
  destruct (log_flags_frame x) as (Hlc & _ & Hlp).
  destruct (incr_cycles_frame t (log_flags x)) as (Hcc & _ & Hcp).
  set (y := incr_cycles t (log_flags x)) in *. clearbody y.
  assert (Hy : context_of y = context_of x) by congruence.
  unfold context_of in Hy. injection Hy as Hyr _ Hyio _ _ _ _.
  assert (Hyp : m_intr_pending (cpu y) = 1).
  { rewrite Hcp, Hlp, Hxp, Hp1. reflexivity. }
  assert (Hon : ime (ime_countdown y) = true).
  { rewrite ime_countdown_ime, Hyp. reflexivity. }
  assert (Hym : interrupt_mask (io y) <> 0).
  { rewrite Hyio, Hxio, Hio1. exact Hmask. }
  destruct (handle_interrupts_services y Hon Hym)
    as (i & Hhp & Hs & _ & Hi & _ & _ & Hpc & Hsp & Hlo & Hhi).
  assert (Hypc : pc (registers (cpu y))
                 = (pc (registers (cpu m)) + 2) mod 0x10000).
  { rewrite Hyr, Hxr, Hreg1. cbn. rewrite Zplus_mod_idemp_l. f_equal. lia. }
  assert (Hysp : sp (registers (cpu y)) = sp (registers (cpu m))).
  { rewrite Hyr, Hxr, Hreg1. reflexivity. }
  exists i. rewrite Hyio, Hxio, Hio1 in Hhp, Hs.
  rewrite Hypc in Hlo, Hhi. rewrite Hysp in Hsp.
  split; [exact Hhp|]. split; [exact Hs|]. split; [exact Hi|].
  split; [exact Hpc|]. split; [exact Hsp|]. split; [exact Hlo | exact Hhi].
Qed.

Lemma ei_takes_effect_after_next_instruction_witness :
  ei_di_nop_handlers scenario_env /\
  debug_idle ei_nop_vblank /\ m_asleep (cpu ei_nop_vblank) = false /\
  readop8 ei_nop_vblank 0 = 0xfb /\ readop8 ei_nop_vblank 1 = 0x00 /\
  ime ei_nop_vblank = false /\ interrupt_mask (io ei_nop_vblank) <> 0 /\
  ime (fst (simulate scenario_env ei_nop_vblank [])) = false /\
  exists i,
    highest_pending i (interrupt_mask (io ei_nop_vblank)) /\
    serviced (io (fst (simulate_n scenario_env 2 ei_nop_vblank [])))
      = serviced (io ei_nop_vblank) ++ [i] /\
    pc (registers (cpu (fst (simulate_n scenario_env 2 ei_nop_vblank []))))
      = fixed_address i.
Proof.
  assert (Hh : ei_di_nop_handlers scenario_env).
  { split; [|split]; intros m; reflexivity. }
  assert (Hidle : debug_idle ei_nop_vblank).
  { split; [|split]; reflexivity. }
  assert (Hmask : interrupt_mask (io ei_nop_vblank) <> 0)
    by (vm_compute; discriminate).
  destruct (ei_takes_effect_after_next_instruction scenario_env ei_nop_vblank []
              Hh Hidle eq_refl eq_refl eq_refl eq_refl Hmask)
    as ((Hoff & _) & i & Hhp & Hs & _ & Hpc & _).
  split; [exact Hh|]. split; [exact Hidle|]. split; [reflexivity|].
  split; [reflexivity|]. split; [reflexivity|]. split; [reflexivity|].
  split; [exact Hmask|]. split; [exact Hoff|].
  exists i. split; [exact Hhp|]. split; [exact Hs | exact Hpc].
Defined.

(** One step of a halted CPU with IME off and no enable pending. *)
Lemma halted_ime_off_step
    (env : environment) (m : machine) (input : list string) :
  m_asleep (cpu m) = true -> ime m = false -> m_intr_pending (cpu m) <= 0 ->
  let s := fst (simulate env m input) in
  snd (simulate env m input) = input /\
  m_asleep (cpu s) = true /\ ime s = false /\ m_intr_pending (cpu s) <= 0 /\
  registers (cpu s) = registers (cpu m) /\ memory s = memory m /\
  io s = io m /\
  m_cycles_total (cpu s) = (m_cycles_total (cpu m) + 4) mod 2 ^ 64.
Proof.
  intros Ha Hi Hp s. subst s. rewrite (simulate_halted env m input Ha).
  cbn [fst snd].
  assert (Hoff : ime (ime_countdown (incr_cycles 4 m)) = false).
  { rewrite ime_countdown_ime. cbn.
    destruct (Z.eqb_spec (m_intr_pending (cpu m)) 1); [lia|].
    destruct (m_intr_pending (cpu m) =? -1); [reflexivity | exact Hi]. }
  rewrite handle_interrupts_idle by (left; exact Hoff).
  destruct (haltbug_countdown_frame (ime_countdown (incr_cycles 4 m)))
    as (Hr & Hm & Hio & Hime & Has & Hpd & Hc & _).
  destruct (ime_countdown_frame (incr_cycles 4 m))
    as (Hr' & Hm' & Hio' & Has' & _ & Hc' & _).
  rewrite Hr, Hm, Hio, Hime, Has, Hpd, Hc, Hr', Hm', Hio', Has', Hc', Hoff.
  rewrite ime_countdown_pending. cbn.
  repeat split; try assumption. lia.
Qed.

(** X11.  A CPU halted with IME off and no enable pending never wakes:
    however many steps are run and whatever interrupts are requested,
    it stays asleep with its registers, memory and I/O unit untouched,
    reads no console input, and only the clock advances, by 4 per
    step. *)
Theorem halted_ime_off_never_wakes
    (env : environment) (n : nat) (m : machine) (input : list string) :
  m_asleep (cpu m) = true -> ime m = false -> m_intr_pending (cpu m) <= 0 ->
  0 <= m_cycles_total (cpu m) < 2 ^ 64 ->
  let s := fst (simulate_n env n m input) in
  snd (simulate_n env n m input) = input /\
  m_asleep (cpu s) = true /\ ime s = false /\
  registers (cpu s) = registers (cpu m) /\ memory s = memory m /\
  io s = io m /\
  m_cycles_total (cpu s) = (m_cycles_total (cpu m) + 4 * Z.of_nat n) mod 2 ^ 64.
Proof.
  revert m. induction n as [|k IH]; intros m Ha Hi Hp Hc s; subst s.
  - cbn [simulate_n fst snd]. rewrite Z.add_0_r, Z.mod_small by lia.
    repeat split; assumption.
  - rewrite simulate_n_S.
    destruct (halted_ime_off_step env m input Ha Hi Hp)
      as (Hin & Ha1 & Hi1 & Hp1 & Hr1 & Hm1 & Hio1 & Hc1).
    rewrite Hin.
    assert (Hrange : 0 <= m_cycles_total (cpu (fst (simulate env m input))) < 2 ^ 64).
    { rewrite Hc1. apply Z.mod_pos_bound. lia. }
    destruct (IH (fst (simulate env m input)) Ha1 Hi1 Hp1 Hrange)
      as (Hin' & Ha' & Hi' & Hr' & Hm' & Hio' & Hc').
    rewrite Hin', Ha', Hi', Hr', Hm', Hio', Hc', Hr1, Hm1, Hio1, Hc1.
    repeat split. rewrite Zplus_mod_idemp_l. f_equal. lia.
Qed.

Lemma halted_ime_off_never_wakes_witness :
  m_asleep (cpu halted_ime_off) = true /\ ime halted_ime_off = false /\
  m_intr_pending (cpu halted_ime_off) <= 0 /\
  0 <= m_cycles_total (cpu halted_ime_off) < 2 ^ 64 /\
  interrupt_mask (io halted_ime_off) <> 0 /\
  m_asleep (cpu (fst (simulate_n scenario_env 1000 halted_ime_off []))) = true.
Proof.
  assert (Hp : m_intr_pending (cpu halted_ime_off) <= 0) by (cbn; lia).
  assert (Hc : 0 <= m_cycles_total (cpu halted_ime_off) < 2 ^ 64) by (cbn; lia).
  split; [reflexivity|]. split; [reflexivity|]. split; [exact Hp|].
  split; [exact Hc|]. split; [vm_compute; discriminate|].
  exact (proj1 (proj2 (halted_ime_off_never_wakes scenario_env 1000
                         halted_ime_off [] eq_refl eq_refl Hp Hc))).
Defined.

(** * Further properties of the debug harness *)

(** [break_time] keeps the memory. *)
Lemma break_time_memory (m m1 : machine) (fire : bool) :
  break_time m = (fire, m1) -> memory m1 = memory m.
Proof.
  unfold break_time.
  destruct (m_break (cpu m)); [intros [= _ <-]; reflexivity|].
  destruct (negb (m_break_steps_cnt (cpu m) =? 0));
    [|intros [= _ <-]; reflexivity].
  cbn. destruct (m_break_steps (cpu m) - 1 <=? 0);
    intros [= _ <-]; reflexivity.
Qed.

(** The periodic break counting down from [S k]: [k] calls without a
    break, then the break, and the counter is refilled. *)
Lemma break_times_countdown (k : nat) (m : machine) (p : Z) :
  m_break (cpu m) = false -> m_break_steps_cnt (cpu m) = p -> p <> 0 ->
  m_break_steps (cpu m) = Z.of_nat (S k) ->
  break_times (S k) m
  = (List.repeat false k ++ [true], upd_cpu (set_break_steps p) m).
Proof.
  revert m. induction k as [|k IH]; intros m Hb Hc Hp Hs.
  - cbn [break_times]. unfold break_time. rewrite Hb, Hc.
    destruct (Z.eqb_spec p 0) as [E|_]; [contradiction|]. cbn.
    rewrite Hs. cbn. rewrite Hc. reflexivity.
  - change (break_times (S (S k)) m)
      with (let '(b, m1) := break_time m in
            let '(bs, m2) := break_times (S k) m1 in (b :: bs, m2)).
    assert (Hbt : break_time m
                  = (false, upd_cpu (set_break_steps (m_break_steps (cpu m) - 1)) m)).
    { unfold break_time. rewrite Hb, Hc.
      destruct (Z.eqb_spec p 0) as [E|_]; [contradiction|]. cbn.
      destruct (Z.leb_spec (m_break_steps (cpu m) - 1) 0) as [Hle|_]; [lia|].
      reflexivity. }
    rewrite Hbt.
    rewrite (IH (upd_cpu (set_break_steps (m_break_steps (cpu m) - 1)) m) Hb Hc Hp)
      by (cbn; lia).
    reflexivity.
Qed.

(** X12.  After [break_on_steps p] with [p >= 1] (and no one-shot break
    armed) the periodic break fires at every [p]-th call of
    [break_time] and at no other, and after each firing the harness is
    back in the state [break_on_steps p] left: with period 1 every
    instruction breaks. *)
Theorem break_time_periodic (p : Z) (m : machine) :
  m_break (cpu m) = false -> 1 <= p ->
  break_times (Z.to_nat p) (break_on_steps p m)
  = (List.repeat false (Z.to_nat p - 1) ++ [true], break_on_steps p m).
Proof.
  intros Hb Hp.
  assert (E : Z.to_nat p = S (Z.to_nat p - 1)) by lia.
  rewrite E at 1.
  rewrite (break_times_countdown (Z.to_nat p - 1) (break_on_steps p m) p);
    [reflexivity | exact Hb | reflexivity | lia | cbn; lia].
Qed.

Lemma break_time_periodic_witness :
  m_break (cpu (power_on [0x00] quiet_io)) = false /\ 1 <= 3 /\
  break_times 3 stepping_by_3 = ([false; false; true], stepping_by_3).
Proof.
  split; [reflexivity|]. split; [lia|].
  exact (break_time_periodic 3 (power_on [0x00] quiet_io) eq_refl
           ltac:(lia)).
Defined.

(** X13.  [break_checks] does to the machine and the console what the
    hooks at the head of [execute] do when given the opcode at PC. *)
Theorem break_checks_as_in_execute
    (env : environment) (m : machine) (input : list string) :
  break_checks env m input
  = (fst (fst (execute_break_checks env m (readop8 m 0) input)),
     snd (fst (execute_break_checks env m (readop8 m 0) input))).
Proof.
  unfold break_checks, execute_break_checks.
  destruct (break_time m) as [fire m1] eqn:Hbt.
  destruct (break_time_frame m m1 fire Hbt) as (Hr & _).
  pose proof (break_time_memory m m1 fire Hbt) as Hm.
  assert (Hop : readop8 m1 0 = readop8 m 0).
  { unfold readop8. now rewrite Hr, Hm. }
  destruct fire.
  - destruct (print_and_pause env (upd_cpu (set_break false) m1) input).
    reflexivity.
  - destruct (negb (bool_decide (m_breakpoints (cpu m1) = ∅))); [|reflexivity].
    destruct (m_breakpoints (cpu m1) !! pc (registers (cpu m1))); [|reflexivity].
    rewrite Hop.
    destruct (run_callback env (callback b) m1 (readop8 m 0) input).
    reflexivity.
Qed.

(** * Properties of the console *)

Lemma split_from_nonempty (cur txt : string) (ch : ascii) :
  split_from cur txt ch <> [].
Proof.
  revert cur. induction txt as [|c rest IH]; intros cur; cbn.
  - discriminate.
  - destruct (Ascii.eqb c ch); [discriminate | apply IH].
Qed.

Lemma string_app_assoc (a b c : string) :
  ((a ++ b) ++ c = a ++ (b ++ c))%string.
Proof.
  induction a as [|x a IH]; [reflexivity|].
  change (String x ((a ++ b) ++ c) = String x (a ++ (b ++ c)))%string.
  now rewrite IH.
Qed.

Lemma string_app_nil_r (a : string) : (a ++ EmptyString)%string = a.
Proof.
  induction a as [|x a IH]; [reflexivity|].
  change (String x (a ++ EmptyString) = String x a)%string. now rewrite IH.
Qed.

Lemma concat_split_from (cur txt : string) (ch : ascii) :
  String.concat (String ch EmptyString) (split_from cur txt ch)
  = (cur ++ txt)%string.
Proof.
  revert cur. induction txt as [|c rest IH]; intros cur.
  - cbn [split_from String.concat]. now rewrite string_app_nil_r.
  - cbn [split_from]. destruct (Ascii.eqb_spec c ch) as [->|Hne].
    + pose proof (split_from_nonempty EmptyString rest ch) as Hn.
      specialize (IH EmptyString).
      destruct (split_from EmptyString rest ch) as [|y ys] eqn:E;
        [contradiction|].
      change (String.concat (String ch EmptyString) (cur :: y :: ys))
        with (cur ++ String ch EmptyString
                  ++ String.concat (String ch EmptyString) (y :: ys))%string.
      rewrite IH. reflexivity.
    + rewrite IH, string_app_assoc. reflexivity.
Qed.

(** X14.  [split] loses nothing: putting the pieces back together with
    the separator between them gives the text that was split, for every
    text, also the empty one and one that starts or ends with the
    separator. *)
Theorem split_join (txt : string) (ch : ascii) :
  String.concat (String ch EmptyString) (split txt ch) = txt.
Proof. unfold split. apply concat_split_from. Qed.

Lemma count_char_app (ch : ascii) (a b : string) :
  count_char ch (a ++ b) = (count_char ch a + count_char ch b)%nat.
Proof.
  induction a as [|x a IH]; [reflexivity|].
  change (count_char ch (String x (a ++ b))
          = (count_char ch (String x a) + count_char ch b)%nat).
  cbn [count_char]. rewrite IH. lia.
Qed.

Lemma split_from_pieces (cur txt : string) (ch : ascii) :
  count_char ch cur = 0%nat ->
  length (split_from cur txt ch) = S (count_char ch txt) /\
  Forall (fun piece => count_char ch piece = 0%nat) (split_from cur txt ch).
Proof.
  revert cur. induction txt as [|c rest IH]; intros cur Hcur.
  - cbn. split; [reflexivity|]. constructor; [exact Hcur | constructor].
  - cbn [split_from count_char]. destruct (Ascii.eqb c ch) eqn:E.
    + destruct (IH EmptyString eq_refl) as (Hl & Hf).
      split; [cbn; now rewrite Hl | constructor; assumption].
    + apply IH. rewrite count_char_app. cbn. rewrite E, Hcur. reflexivity.
Qed.

(** X15.  [split] cuts at every separator: the number of pieces is one
    more than the number of separators in the text (so there is always
    at least one piece), and no piece contains the separator. *)
Theorem split_pieces (txt : string) (ch : ascii) :
  length (split txt ch) = S (count_char ch txt) /\
  Forall (fun piece => count_char ch piece = 0%nat) (split txt ch).
Proof. unfold split. now apply split_from_pieces. Qed.



(** X17.  A line whose first word is no command leaves the machine as
    it is and keeps the console open: [print_and_pause] goes on to the
    next line. *)
Theorem unknown_command_is_skipped
    (env : environment) (text : string) (rest : list string) (m : machine) :
  ~ In (param (split text " "%char) 0) known_commands ->
  execute_commands env text m = (true, m) /\
  print_and_pause env m (text :: rest) = print_and_pause env m rest.
Proof.
  intros Hnot.
  assert (Hne : forall w, In w known_commands ->
                  String.eqb (param (split text " "%char) 0) w = false).
  { intros w Hw. apply String.eqb_neq. intros E. apply Hnot. now rewrite E. }
  assert (Htext : String.eqb text EmptyString = false).
  { apply String.eqb_neq. intros ->. apply Hnot. cbn. tauto. }
  assert (E : execute_commands env text m = (true, m)).
  { unfold execute_commands. rewrite Htext.
    set (cmd := param (split text " "%char) 0) in *. cbv zeta.
    repeat match goal with
           | |- context [String.eqb cmd ?w] =>
               rewrite (Hne w) by (unfold known_commands; simpl; tauto)
           end.
    reflexivity. }
  split; [exact E|]. cbn [print_and_pause]. rewrite E. reflexivity.
Qed.

Lemma unknown_command_is_skipped_witness :
  ~ In (param (split "jump 0x100" " "%char) 0) known_commands /\
  print_and_pause scenario_env break_armed ["jump 0x100"; "q"]%string
  = (stop break_armed, []).
Proof.
  assert (H : ~ In (param (split "jump 0x100" " "%char) 0) known_commands).
  { cbn. intros Hin.
    repeat (destruct Hin as [Hin|Hin]; [discriminate Hin|]). exact Hin. }
  split; [exact H|].
  rewrite (proj2 (unknown_command_is_skipped scenario_env "jump 0x100"
                    ["q"%string] break_armed H)).
  reflexivity.
Defined.

(** * Properties of the audio unit *)

(** X18.  The audio unit handles NR52 and nothing else: a read or write
    of any other register fails.  A write to NR52 keeps the low four
    bits of the register, clears bits 4 to 6 and takes bit 7 from the
    value written, so that afterwards the unit is off exactly when
    bit 7 of that value is clear, and reading NR52 back returns the
    stored byte. *)
Theorem apu_nr52_write (REG_NR52 addr value reg : Z) :
  (addr <> REG_NR52 ->
     APU.write REG_NR52 addr value reg = None /\
     APU.read REG_NR52 addr reg = None) /\
  (addr = REG_NR52 ->
     exists r,
       APU.write REG_NR52 addr value reg = Some r /\
       APU.read REG_NR52 addr r = Some r /\
       0 <= r < 256 /\
       Z.land r 0xF = Z.land reg 0xF /\
       Z.land r 0x70 = 0 /\
       APU.sound_off r = APU.sound_off value).
Proof.
  unfold APU.write, APU.read, APU.sound_off. split.
  - intros Hne. destruct (Z.eqb_spec addr REG_NR52); [contradiction|].
    split; reflexivity.
  - intros ->. rewrite Z.eqb_refl.
    exists (Z.lor (Z.land reg 0xF) (Z.land value 0x80)).
    assert (Hlow : Z.land (Z.lor (Z.land reg 0xF) (Z.land value 0x80)) 0xF
                   = Z.land reg 0xF).
    { rewrite Z.land_lor_distr_l, <- !Z.land_assoc.
      change (Z.land 0xF 0xF) with 0xF. change (Z.land 0x80 0xF) with 0.
      now rewrite Z.land_0_r, Z.lor_0_r. }
    assert (Hmid : Z.land (Z.lor (Z.land reg 0xF) (Z.land value 0x80)) 0x70 = 0).
    { rewrite Z.land_lor_distr_l, <- !Z.land_assoc.
      change (Z.land 0xF 0x70) with 0. change (Z.land 0x80 0x70) with 0.
      now rewrite !Z.land_0_r. }
    assert (Hhigh : Z.land (Z.lor (Z.land reg 0xF) (Z.land value 0x80)) 0x80
                    = Z.land value 0x80).
    { rewrite Z.land_lor_distr_l, <- !Z.land_assoc.
      change (Z.land 0xF 0x80) with 0. change (Z.land 0x80 0x80) with 0x80.
      now rewrite Z.land_0_r, Z.lor_0_l. }
    assert (Hbyte : Z.land (Z.lor (Z.land reg 0xF) (Z.land value 0x80)) 0xff
                    = Z.lor (Z.land reg 0xF) (Z.land value 0x80)).
    { rewrite Z.land_lor_distr_l, <- !Z.land_assoc. reflexivity. }
    split; [reflexivity|]. split; [reflexivity|].
    split.
    { rewrite <- Hbyte, land_ff_mod. apply Z.mod_pos_bound. lia. }
    split; [exact Hlow|]. split; [exact Hmid|]. now rewrite Hhigh.
Qed.

Lemma apu_nr52_write_witness :
  0xff26 = 0xff26 /\
  APU.write 0xff26 0xff26 0x80 0x7f = Some 0x8f /\
  APU.sound_off 0x8f = APU.sound_off 0x80.
Proof.
  destruct (proj2 (apu_nr52_write 0xff26 0xff26 0x80 0x7f) eq_refl)
    as (r & Hw & _ & _ & _ & _ & Hs).
  assert (E : r = 0x8f).
  { vm_compute in Hw. now injection Hw as <-. }
  subst r. split; [reflexivity|]. split; [exact Hw | exact Hs].
Defined.

(** * Properties of the variant *)

(** X19.  At the one-key prompt of the variant the keys 1 to 9 turn
    verbose mode on and set the step period to 1, 2, 4, ... 256 (two to
    the power of the digit less one), and the character after the key
    is dropped with it. *)
Theorem legacy_digit_key_period
    (m : Legacy.machine) (c : ascii) (rest : string) :
  49 <= Z.of_N (N_of_ascii c) <= 57 ->
  Legacy.print_and_pause m (String c rest)
  = (Legacy.set_break_on_steps (2 ^ (Z.of_N (N_of_ascii c) - 49))
       (Legacy.set_verbose_instructions true m),
     snd (Legacy.getchar rest)) /\
  1 <= 2 ^ (Z.of_N (N_of_ascii c) - 49) <= 256.
Proof.
  intros Hz. unfold Legacy.print_and_pause.
  cbn [Legacy.getchar]. generalize dependent (Z.of_N (N_of_ascii c)).
  intros z Hz.
  assert (Hcases : In z [49; 50; 51; 52; 53; 54; 55; 56; 57]).
  { assert (Hs : In z (List.map Z.of_nat (seq 49 9))).
    { apply in_map_iff. exists (Z.to_nat z). split; [lia|]. apply in_seq. lia. }
    exact Hs. }
  cbn in Hcases.
  repeat (destruct Hcases as [<-|Hcases]; [split; [reflexivity | lia]|]).
  contradiction.
Qed.

Lemma legacy_digit_key_period_witness :
  49 <= Z.of_N (N_of_ascii "3"%char) <= 57 /\
  Legacy.m_break_steps_cnt
    (Legacy.cpu (fst (Legacy.print_and_pause legacy_power_on "3"%string))) = 4.
Proof.
  assert (H : 49 <= Z.of_N (N_of_ascii "3"%char) <= 57) by (cbn; lia).
  split; [exact H|].
  rewrite (proj1 (legacy_digit_key_period legacy_power_on "3"%char
                    EmptyString H)).
  reflexivity.
Defined.

Lemma legacy_ei_then_di_witness :
  Legacy.m_intr_disable_pending (Legacy.cpu legacy_power_on) = 0 /\
  Legacy.ime legacy_power_on = false /\
  Legacy.ime
    (Legacy.ime_countdown
       (Legacy.disable_interrupts
          (Legacy.ime_countdown (Legacy.enable_interrupts legacy_power_on))))
  = true.
Proof.
  split; [reflexivity|]. split; [reflexivity|].
  exact (proj1 (proj2 (legacy_ei_then_di legacy_power_on eq_refl))).
Defined.

Lemma legacy_breakpoint_settings_adopted_witness :
  Legacy.break_time legacy_at_breakpoint = (false, legacy_at_breakpoint) /\
  Legacy.m_breakpoints (Legacy.cpu legacy_at_breakpoint)
    !! pc (Legacy.registers (Legacy.cpu legacy_at_breakpoint))
  = Some {| Legacy.callback := None; Legacy.break_on_steps := 5;
            Legacy.verbose_instr := true |} /\
  Legacy.m_break_steps_cnt
    (Legacy.cpu (fst (Legacy.execute_break_checks legacy_env
                        legacy_at_breakpoint 0x00 EmptyString))) = 5 /\
  Legacy.verbose_instructions
    (fst (Legacy.execute_break_checks legacy_env
            legacy_at_breakpoint 0x00 EmptyString)) = true.
Proof.
  assert (Hbp : Legacy.m_breakpoints (Legacy.cpu legacy_at_breakpoint)
                  !! pc (Legacy.registers (Legacy.cpu legacy_at_breakpoint))
                = Some {| Legacy.callback := None; Legacy.break_on_steps := 5;
                          Legacy.verbose_instr := true |})
    by (vm_compute; reflexivity).
  destruct (legacy_breakpoint_settings_adopted legacy_env legacy_at_breakpoint
              legacy_at_breakpoint 0x00 EmptyString _ eq_refl Hbp)
    as (_ & Hc & _ & Hv).
  split; [reflexivity|]. split; [exact Hbp|]. split; [exact Hc | exact Hv].
Defined.

Lemma simulate_unused_opcode_witness :
  (forall x op, handler scenario_env instr_UNUSED_OPS x op = (x, 4)) /\
  debug_idle (power_on [0xdb] quiet_io) /\
  In (readop8 (power_on [0xdb] quiet_io) 0) [0xdb; 0xe4; 0xeb; 0xec; 0xf4; 0xfc] /\
  pc (registers (cpu (fst (simulate scenario_env (power_on [0xdb] quiet_io) []))))
    = 0x0101 /\
  m_cycles_total (cpu (fst (simulate scenario_env (power_on [0xdb] quiet_io) [])))
    = 4.
Proof.
  assert (Hh : forall x op, handler scenario_env instr_UNUSED_OPS x op = (x, 4))
    by (intros; reflexivity).
  assert (Hidle : debug_idle (power_on [0xdb] quiet_io))
    by (split; [|split]; reflexivity).
  assert (Hin : In (readop8 (power_on [0xdb] quiet_io) 0)
                   [0xdb; 0xe4; 0xeb; 0xec; 0xf4; 0xfc]) by (left; reflexivity).
  destruct (simulate_unused_opcode scenario_env (power_on [0xdb] quiet_io) []
              Hh Hidle eq_refl Hin eq_refl (or_introl eq_refl))
    as (Hpc & Hc); [cbn; lia | cbn; lia |].
  split; [exact Hh|]. split; [exact Hidle|]. split; [exact Hin|].
  split; [exact Hpc | exact Hc].
Defined.

(** * Leaving the console *)

(** X20.  The commands c, continue, r and run close the console with
    the periodic break switched off: unless a one-shot break is armed,
    the next [break_time] does not fire and changes nothing. *)
Theorem continue_stops_stepping
    (env : environment) (text : string) (m : machine) :
  In (param (split text " "%char) 0) ["c"; "continue"; "r"; "run"]%string ->
  fst (execute_commands env text m) = false /\
  m_break_steps_cnt (cpu (snd (execute_commands env text m))) = 0 /\
  m_break (cpu (snd (execute_commands env text m))) = m_break (cpu m) /\
  (m_break (cpu m) = false ->
   break_time (snd (execute_commands env text m))
   = (false, snd (execute_commands env text m))).
Proof.
  intros Hin.
  assert (Htext : String.eqb text EmptyString = false).
  { apply String.eqb_neq. intros ->. cbn in Hin.
    repeat (destruct Hin as [Hin|Hin]; [discriminate Hin|]). exact Hin. }
  unfold execute_commands. rewrite Htext.
  set (cmd := param (split text " "%char) 0) in *. cbv zeta.
  cbn in Hin.
  destruct Hin as [<-|[<-|[<-|[<-|[]]]]]; cbn;
    (split; [reflexivity|]; split; [reflexivity|]; split; [reflexivity|];
     intros Hb; unfold break_time; cbn; rewrite Hb; reflexivity).
Qed.

Lemma continue_stops_stepping_witness :
  In (param (split "continue" " "%char) 0) ["c"; "continue"; "r"; "run"]%string /\
  m_break_steps_cnt (cpu stepping_by_3) = 3 /\
  break_time (snd (execute_commands scenario_env "continue" stepping_by_3))
  = (false, snd (execute_commands scenario_env "continue" stepping_by_3)).
Proof.
  assert (H : In (param (split "continue" " "%char) 0)
                 ["c"; "continue"; "r"; "run"]%string)
    by (right; left; reflexivity).
  split; [exact H|]. split; [reflexivity|].
  exact (proj2 (proj2 (proj2 (continue_stops_stepping scenario_env "continue"
                                stepping_by_3 H))) eq_refl).
Defined.
